(** * Loco Data Summary API (backend/server.py): a shallow embedding

    The server caches four Google-Sheets tabs in four MongoDB collections,
    refreshes them on a six-hour cadence and answers lookups by locomotive
    number.  This development embeds the refresh coordinator, the summary
    assembler, the status report and the search pipeline as Rocq functions
    over an explicit world (the four collections, [last_refresh_time] and
    the number of clock reads so far) and checks the written specification
    against them.

    Modelling conventions.
    - A Python [str] is a [string]; every character is read as the code
      point of the same number (0..255).
    - A [datetime] is a [Z] counting microseconds; [timedelta(hours=6)] is
      the corresponding number of microseconds.
    - A pandas row (after [clean_dataframe]) is an ordered association list
      from column header to text; [row.get(k, '')] is the first binding.
    - A collection is the list of its documents in insertion order.
    - Exceptions are values: a handler returns [inl exn] or [inr result]
      together with the world it leaves behind.
    - The import of the module and the bodies of its handlers are modelled
      apart: [exec_module] runs the top-level statements, and a handler body
      resolves a global against every name those statements bind. *)

From Stdlib Require Import Bool Arith ZArith List Lia.
From Stdlib Require Import Ascii String DecimalString.
From Stdlib Require Import Sorted Permutation OrderedTypeEx.
Import ListNotations.

Local Open Scope string_scope.
Local Open Scope list_scope.

(** ** Python string primitives *)

Module PyStr.

(** [str.isspace] on one character, for the code points below 256:
    TAB..CR, FS..US, SPACE, NEL (0x85) and NBSP (0xA0). *)
Definition isspace (c : ascii) : bool :=
  let n := nat_of_ascii c in
  (((9 <=? n) && (n <=? 13)) || ((28 <=? n) && (n <=? 32))
   || (n =? 133) || (n =? 160))%nat.

(** Leading part of [str.strip()]. *)
Fixpoint lstrip (s : string) : string :=
  match s with
  | EmptyString => EmptyString
  | String c s' => if isspace c then lstrip s' else s
  end.

(** Trailing part of [str.strip()]. *)
Fixpoint rstrip (s : string) : string :=
  match s with
  | EmptyString => EmptyString
  | String c s' =>
      match rstrip s' with
      | EmptyString => if isspace c then EmptyString else String c EmptyString
      | r => String c r
      end
  end.

(** [s.strip()] *)
Definition strip (s : string) : string := lstrip (rstrip s).

(** [s.replace('.0', '')]: every occurrence, scanning left to right; the
    scan resumes after a removed occurrence. *)
Fixpoint replace_dot0 (s : string) : string :=
  match s with
  | EmptyString => EmptyString
  | String c s' =>
      match s' with
      | EmptyString => s
      | String d s'' =>
          if (c =? ".")%char && (d =? "0")%char
          then replace_dot0 s''
          else String c (replace_dot0 s')
      end
  end.

(** [sub in s] *)
Fixpoint contains (sub s : string) : bool :=
  prefix sub s ||
  match s with
  | EmptyString => false
  | String _ s' => contains sub s'
  end.

(** Truthiness of a [str]: the empty string is falsy. *)
Definition truthy (s : string) : bool :=
  match s with EmptyString => false | _ => true end.

End PyStr.

(** ** Identifier normalization

    [refresh_all_data] cleans the identifier of a Loco_Schedules row and of
    a Traction_failures row with
    [str(row.get(..)).replace('.0', '').strip()]: this is [normalize].  The
    identifier of a Loco_list row and of a WAG7_Modifications row, and the
    path parameter of [get_loco_summary], go through [.strip()] alone. *)

Definition normalize (raw : string) : string :=
  PyStr.strip (PyStr.replace_dot0 raw).

(** ** Data model *)

(** One spreadsheet row once [clean_dataframe] has turned every cell into
    text: column header and cell, in column order. *)
Definition Row : Type := list (string * string).

(** [row.get(key, default)] and [data.get(key, default)]. *)
Fixpoint row_get (key : string) (row : Row) (default : string) : string :=
  match row with
  | [] => default
  | (k, v) :: rest => if (k =? key)%string then v else row_get key rest default
  end.

(** The document [refresh_all_data] builds for one row. *)
Record Document : Type := mkDocument {
  collection : string;
  loco_no : string;
  data : Row;
  updated_at : Z
}.

Inductive CollectionName : Type :=
  | loco_data | schedule_data | failure_data | modifications_data.

(** The database [db]: four collections, each the list of its documents
    in insertion order. *)
Record Database : Type := mkDatabase {
  docs_loco : list Document;
  docs_schedule : list Document;
  docs_failure : list Document;
  docs_modifications : list Document
}.

(** [db.<c>] *)
Definition coll (d : Database) (c : CollectionName) : list Document :=
  match c with
  | loco_data => docs_loco d
  | schedule_data => docs_schedule d
  | failure_data => docs_failure d
  | modifications_data => docs_modifications d
  end.

Definition db_set (d : Database) (c : CollectionName) (docs : list Document)
  : Database :=
  match c with
  | loco_data =>
      mkDatabase docs (docs_schedule d) (docs_failure d) (docs_modifications d)
  | schedule_data =>
      mkDatabase (docs_loco d) docs (docs_failure d) (docs_modifications d)
  | failure_data =>
      mkDatabase (docs_loco d) (docs_schedule d) docs (docs_modifications d)
  | modifications_data =>
      mkDatabase (docs_loco d) (docs_schedule d) (docs_failure d) docs
  end.

Definition empty_db : Database := mkDatabase [] [] [] [].

(** The process state the handlers share: the database, the module global
    [last_refresh_time], and how many times the clock has been read. *)
Record World : Type := mkWorld {
  db : Database;
  last_refresh_time : option Z;
  clock_reads : nat
}.

(** What lies outside the process: what a fetch of each sheet returns
    ([None] when [pd.read_csv] raises), the successive readings of
    [datetime.utcnow()], and what the store's regular-expression engine
    makes, under option [i], of a pattern that the fragment interpreted
    below does not cover: [None] when it rejects the pattern, otherwise the
    texts in which it finds a match. *)
Record Env : Type := mkEnv {
  sheet : string -> option (list Row);
  utcnow : nat -> Z;
  store_regex : string -> option (string -> bool)
}.

(** The world right after the module globals are initialised
    ([last_refresh_time = None]) over a given database. *)
Definition initial_world (d : Database) : World :=
  {| db := d; last_refresh_time := None; clock_reads := 0 |}.

Inductive exn : Type :=
  | HTTPException (status_code : Z) (detail : string)
  | NameError (name : string)
  | OperationFailure (pattern : string).

(** ** Handlers as state transformers that may raise *)

Definition M (A : Type) : Type := World -> (exn + A) * World.

Definition ret {A} (a : A) : M A := fun w => (inr a, w).

Definition raise {A} (e : exn) : M A := fun w => (inl e, w).

Definition bind {A B} (m : M A) (k : A -> M B) : M B :=
  fun w =>
    match m w with
    | (inl e, w') => (inl e, w')
    | (inr a, w') => k a w'
    end.

Notation "x <- m ;; k" := (bind m (fun x => k))
  (at level 61, m at next level, right associativity).
Notation "m ;;; k" := (bind m (fun _ => k))
  (at level 61, right associativity).

Definition get_world : M World := fun w => (inr w, w).

(** [await db.<c>.delete_many({})] *)
Definition delete_many (c : CollectionName) : M unit :=
  fun w =>
    (inr tt, {| db := db_set (db w) c [];
                last_refresh_time := last_refresh_time w;
                clock_reads := clock_reads w |}).

(** [await db.<c>.insert_many(docs)] *)
Definition insert_many (c : CollectionName) (docs : list Document) : M unit :=
  fun w =>
    (inr tt, {| db := db_set (db w) c (coll (db w) c ++ docs);
                last_refresh_time := last_refresh_time w;
                clock_reads := clock_reads w |}).

(** [last_refresh_time = t] *)
Definition set_last_refresh_time (t : Z) : M unit :=
  fun w =>
    (inr tt, {| db := db w; last_refresh_time := Some t;
                clock_reads := clock_reads w |}).

(** [await db.<c>.find_one({'loco_no': key})] *)
Definition find_one (d : Database) (c : CollectionName) (key : string)
  : option Document :=
  find (fun doc => (loco_no doc =? key)%string) (coll d c).

(** [await db.<c>.find({'loco_no': key}).to_list(n)] *)
Definition find_to_list (d : Database) (c : CollectionName) (key : string)
  (n : nat) : list Document :=
  firstn n (filter (fun doc => (loco_no doc =? key)%string) (coll d c)).

(** [await db.<c>.count_documents({})] *)
Definition count_documents (d : Database) (c : CollectionName) : nat :=
  List.length (coll d c).

Definition SHEET_NAMES (key : string) : string :=
  if (key =? "loco_list")%string then "Loco_list"
  else if (key =? "loco_schedules")%string then "Loco_Schedules"
  else if (key =? "traction_failures")%string then "Traction_failures"
  else "WAG7_Modifications".

Definition REFRESH_INTERVAL_HOURS : Z := 6.

(** [timedelta(hours=h)] in microseconds. *)
Definition timedelta_hours (h : Z) : Z := (h * 3600 * 1000000)%Z.

(** The identifier that [refresh_all_data] stores for a row of each sheet. *)
Definition loco_list_key (row : Row) : string :=
  PyStr.strip (row_get "Loco No." row "").

Definition schedule_key (row : Row) : string :=
  normalize (row_get "Loco No. " row "").

Definition failure_key (row : Row) : string :=
  normalize (row_get "LOCO No. " row "").

Definition modifications_key (row : Row) : string :=
  PyStr.strip (row_get "Loco No." row "").

Section Handlers.

Variable env : Env.

(** [datetime.utcnow()] *)
Definition now : M Z :=
  fun w =>
    (inr (utcnow env (clock_reads w)),
     {| db := db w; last_refresh_time := last_refresh_time w;
        clock_reads := S (clock_reads w) |}).

(** [fetch_sheet_data]: any failure of the download becomes an
    [HTTPException] with status 500. *)
Definition fetch_sheet_data (sheet_name : string) : M (list Row) :=
  match sheet env sheet_name with
  | Some rows => ret rows
  | None =>
      raise (HTTPException 500 ("Failed to fetch " ++ sheet_name ++ " data"))
  end.

(** The [for _, row in df.iterrows()] loops of [refresh_all_data]: one
    record per row, stamped with a fresh clock reading. *)
Fixpoint build_records (cname : string) (key_of : Row -> string)
  (rows : list Row) : M (list Document) :=
  match rows with
  | [] => ret []
  | row :: rest =>
      t <- now ;;
      records <- build_records cname key_of rest ;;
      ret ({| collection := cname; loco_no := key_of row;
              data := row; updated_at := t |} :: records)
  end.

(** [if records: await db.<c>.insert_many(records)] *)
Definition insert_if_any (c : CollectionName) (records : list Document)
  : M unit :=
  match records with
  | [] => ret tt
  | _ :: _ => insert_many c records
  end.

Definition refresh_all_data : M (list (string * nat)) :=
  (* Clear existing data *)
  delete_many loco_data ;;;
  delete_many schedule_data ;;;
  delete_many failure_data ;;;
  (* Fetch and store Loco_list data *)
  loco_df <- fetch_sheet_data (SHEET_NAMES "loco_list") ;;
  loco_records <- build_records "loco_data" loco_list_key loco_df ;;
  insert_if_any loco_data loco_records ;;;
  (* Fetch and store Loco_Schedules data *)
  schedule_df <- fetch_sheet_data (SHEET_NAMES "loco_schedules") ;;
  schedule_records <-
    build_records "schedule_data" schedule_key schedule_df ;;
  insert_if_any schedule_data schedule_records ;;;
  (* Fetch and store Traction_failures data *)
  failure_df <- fetch_sheet_data (SHEET_NAMES "traction_failures") ;;
  failure_records <-
    build_records "failure_data" failure_key failure_df ;;
  insert_if_any failure_data failure_records ;;;
  (* Fetch and store WAG7_Modifications data *)
  modifications_df <- fetch_sheet_data (SHEET_NAMES "wag7_modifications") ;;
  modifications_records <-
    build_records "modifications_data" modifications_key modifications_df ;;
  insert_if_any modifications_data modifications_records ;;;
  t <- now ;;
  set_last_refresh_time t ;;;
  ret [ ("loco_data", List.length loco_records);
        ("schedule_data", List.length schedule_records);
        ("failure_data", List.length failure_records) ].

Definition check_and_refresh_data : M unit :=
  w <- get_world ;;
  match last_refresh_time w with
  | None => refresh_all_data ;;; ret tt
  | Some last =>
      t <- now ;;
      if (t - last >? timedelta_hours REFRESH_INTERVAL_HOURS)%Z
      then refresh_all_data ;;; ret tt
      else ret tt
  end.

End Handlers.

(** ** The module's top-level statements and its global namespace

    Python binds a global name when the top-level statement that defines it
    runs, and resolves a global referenced in a function body when the body
    runs.  For each top-level statement of server.py the table records its
    line, the names it binds, the names it evaluates while it runs (base
    classes, class-body annotations, decorators, parameter annotations,
    right-hand sides) in evaluation order, and the globals its body refers
    to.  The module has no [from __future__ import annotations], so the
    annotations of a class body are evaluated when the class statement
    runs. *)

Record Stmt : Type := mkStmt {
  line : nat;
  binds : list string;
  evaluates : list string;
  body_refs : list string
}.

(** The builtins the module uses, and the module attributes that the
    import system sets before the first statement runs. *)
Definition builtins : list string :=
  ["str"; "int"; "len"; "Exception"; "__file__"; "__name__"].

Definition server_py : list Stmt := [
  mkStmt 1 ["FastAPI"; "APIRouter"; "HTTPException"] [] [];
  mkStmt 2 ["load_dotenv"] [] [];
  mkStmt 3 ["CORSMiddleware"] [] [];
  mkStmt 4 ["AsyncIOMotorClient"] [] [];
  mkStmt 5 ["os"] [] [];
  mkStmt 6 ["logging"] [] [];
  mkStmt 7 ["asyncio"] [] [];
  mkStmt 8 ["Path"] [] [];
  mkStmt 9 ["BaseModel"; "Field"] [] [];
  mkStmt 10 ["List"; "Optional"; "Dict"; "Any"] [] [];
  mkStmt 11 ["uuid"] [] [];
  mkStmt 12 ["datetime"; "timedelta"] [] [];
  mkStmt 13 ["pd"] [] [];
  mkStmt 14 ["np"] [] [];
  mkStmt 16 ["ROOT_DIR"] ["Path"; "__file__"] [];
  mkStmt 17 [] ["load_dotenv"; "ROOT_DIR"] [];
  mkStmt 20 ["mongo_url"] ["os"] [];
  mkStmt 21 ["client"] ["AsyncIOMotorClient"; "mongo_url"] [];
  mkStmt 22 ["db"] ["client"; "os"] [];
  mkStmt 25 ["app"] ["FastAPI"] [];
  mkStmt 28 ["api_router"] ["APIRouter"] [];
  mkStmt 31 ["SHEET_ID"] [] [];
  mkStmt 32 ["SHEET_NAMES"] [] [];
  mkStmt 40 ["REFRESH_INTERVAL_HOURS"] [] [];
  mkStmt 41 ["last_refresh_time"] [] [];
  mkStmt 44 ["LocoDetail"] ["BaseModel"; "str"] [];
  mkStmt 48 ["LocoSchedule"] ["BaseModel"; "Optional"; "str"] [];
  mkStmt 53 ["TractionFailure"] ["BaseModel"; "Optional"; "str"] [];
  mkStmt 65 ["LocoSummaryResponse"]
    ["BaseModel"; "str"; "List"; "LocoDetail"; "List"; "LocoSchedule";
     "List"; "TractionFailure"; "List"; "ModificationDetail"; "datetime"] [];
  mkStmt 73 ["RefreshStatusResponse"]
    ["BaseModel"; "str"; "Optional"; "datetime"; "Dict"; "int"] [];
  mkStmt 80 ["clean_dataframe"] [] [];
  mkStmt 84 ["fetch_sheet_data"] ["str"; "pd"]
    ["SHEET_ID"; "pd"; "clean_dataframe"; "Exception"; "logger";
     "HTTPException"];
  mkStmt 94 ["refresh_all_data"] []
    ["last_refresh_time"; "logger"; "db"; "fetch_sheet_data"; "SHEET_NAMES";
     "str"; "datetime"; "len"; "Exception"];
  mkStmt 183 ["check_and_refresh_data"] []
    ["last_refresh_time"; "datetime"; "timedelta"; "REFRESH_INTERVAL_HOURS";
     "refresh_all_data"];
  mkStmt 193 ["root"] ["api_router"] [];
  mkStmt 197 ["get_loco_summary"] ["api_router"; "LocoSummaryResponse"; "str"]
    ["check_and_refresh_data"; "str"; "db"; "LocoDetail"; "LocoSchedule";
     "TractionFailure"; "ModificationDetail"; "HTTPException";
     "LocoSummaryResponse"; "last_refresh_time"; "datetime"];
  mkStmt 276 ["manual_refresh"] ["api_router"]
    ["refresh_all_data"; "last_refresh_time"; "Exception"; "logger";
     "HTTPException"; "str"];
  mkStmt 291 ["get_refresh_status"] ["api_router"; "RefreshStatusResponse"]
    ["db"; "last_refresh_time"; "timedelta"; "REFRESH_INTERVAL_HOURS";
     "RefreshStatusResponse"];
  mkStmt 317 ["search_locos"] ["api_router"; "str"]
    ["check_and_refresh_data"; "db"];
  mkStmt 336 [] ["app"; "api_router"] [];
  mkStmt 338 [] ["app"; "CORSMiddleware"; "os"] [];
  mkStmt 346 [] ["logging"] [];
  mkStmt 350 ["logger"] ["logging"; "__name__"] [];
  mkStmt 352 ["startup_event"] ["app"]
    ["logger"; "refresh_all_data"; "Exception"];
  mkStmt 362 ["shutdown_db_client"] ["app"] ["client"]
].

Definition name_in (ns : list string) (name : string) : bool :=
  existsb (String.eqb name) ns.




(** Every name some top-level statement of the module binds, with the
    builtins: what a function body can resolve at best. *)
Definition module_namespace : list string :=
  builtins ++ flat_map binds server_py.

(** Resolving a global inside a function body.  The handlers below spell
    the lookup out for the one name it fails on. *)
Definition lookup_global (name : string) : M unit :=
  if name_in module_namespace name then ret tt else raise (NameError name).

(** ** Response models *)

Record LocoDetail : Type := mkLocoDetail {
  field : string;
  value : string
}.

Record LocoSchedule : Type := mkLocoSchedule {
  incoming_date : option string;
  sch : option string;
  outgoing_date : option string
}.

(** The field [loco_no] of the source is [failure_loco_no] here, the name
    being taken by [Document]. *)
Record TractionFailure : Type := mkTractionFailure {
  date_failed : option string;
  icms_message : option string;
  failure_loco_no : option string;
  mu_with : option string;
  div : option string;
  rly : option string;
  brief_message : option string;
  cause_of_failure : option string;
  component : option string;
  system : option string
}.

(** [summary_loco_no] is the field [loco_no] of the source.  The items of
    [modifications] are the keyword arguments that the source hands to
    [ModificationDetail]. *)
Record LocoSummaryResponse : Type := mkLocoSummaryResponse {
  summary_loco_no : string;
  details : list LocoDetail;
  schedules : list LocoSchedule;
  failures : list TractionFailure;
  modifications : list (string * string);
  last_updated : Z
}.

(** [status] of the source is [status_text] here. *)
Record RefreshStatusResponse : Type := mkRefreshStatusResponse {
  status_text : string;
  last_refresh : option Z;
  next_refresh : option Z;
  records_count : list (string * nat)
}.

(** [str(x).strip() or None] *)
Definition strip_or_None (x : string) : option string :=
  let s := PyStr.strip x in
  if PyStr.truthy s then Some s else None.

Definition exclude_fields : list string := ["Type"; "Loco No."].

(** [key not in exclude_fields and str(value).strip()] *)
Definition shown (kv : string * string) : bool :=
  negb (name_in exclude_fields (fst kv)) && PyStr.truthy (PyStr.strip (snd kv)).

(** The details loop: one [LocoDetail] per shown pair, value unstripped. *)
Definition loco_details (d : Row) : list LocoDetail :=
  map (fun kv => mkLocoDetail (fst kv) (snd kv)) (filter shown d).

(** The modifications loop: the first shown pair makes the body resolve
    the global [ModificationDetail]. *)
Fixpoint modification_details (d : Row) : M (list (string * string)) :=
  match d with
  | [] => ret []
  | kv :: rest =>
      if shown kv
      then lookup_global "ModificationDetail" ;;;
           items <- modification_details rest ;;
           ret (kv :: items)
      else modification_details rest
  end.

Definition schedule_of (d : Row) : LocoSchedule :=
  {| incoming_date := strip_or_None (row_get "Incoming Date " d "");
     sch := strip_or_None (row_get "Sch " d "");
     outgoing_date := strip_or_None (row_get "Outgoing Date " d "") |}.

Definition failure_of (d : Row) : TractionFailure :=
  {| date_failed := strip_or_None (row_get "Date Failed " d "");
     icms_message := strip_or_None (row_get "ICMS/ Message " d "");
     failure_loco_no := strip_or_None (row_get "LOCO No. " d "");
     mu_with := strip_or_None (row_get "MU with " d "");
     div := strip_or_None (row_get "Div " d "");
     rly := strip_or_None (row_get "Rly " d "");
     brief_message := strip_or_None (row_get "Brief Message " d "");
     cause_of_failure := strip_or_None (row_get "Cause of Failure " d "");
     component := strip_or_None (row_get "Component " d "");
     system := strip_or_None (row_get "System " d "") |}.

Definition is_nil {A} (l : list A) : bool :=
  match l with [] => true | _ :: _ => false end.

(** The four projections of [get_loco_summary] for a cleaned identifier.
    [modifications_of] lists the pairs the modifications loop appends. *)
Definition details_of (d : Database) (id : string) : list LocoDetail :=
  match find_one d loco_data id with
  | Some doc => loco_details (data doc)
  | None => []
  end.

Definition schedules_of (d : Database) (id : string) : list LocoSchedule :=
  map (fun doc => schedule_of (data doc)) (find_to_list d schedule_data id 1000).

Definition failures_of (d : Database) (id : string) : list TractionFailure :=
  map (fun doc => failure_of (data doc)) (find_to_list d failure_data id 1000).

Definition modifications_of (d : Database) (id : string)
  : list (string * string) :=
  match find_one d modifications_data id with
  | Some doc => filter shown (data doc)
  | None => []
  end.

Section Queries.

Variable env : Env.

Definition get_loco_summary (raw_loco_no : string) : M LocoSummaryResponse :=
  (* Ensure data is fresh *)
  check_and_refresh_data env ;;;
  (* Clean the input loco number *)
  let loco_no := PyStr.strip raw_loco_no in
  w <- get_world ;;
  (* Fetch loco details (exclude Type column) *)
  let details := details_of (db w) loco_no in
  (* Fetch loco schedules *)
  let schedules := schedules_of (db w) loco_no in
  (* Fetch traction failures *)
  let failures := failures_of (db w) loco_no in
  (* Fetch modifications *)
  modifications <-
    match find_one (db w) modifications_data loco_no with
    | Some doc => modification_details (data doc)
    | None => ret []
    end ;;
  (* If there's no data at all, throw 404 *)
  if is_nil details && is_nil schedules && is_nil failures
     && is_nil modifications
  then raise (HTTPException 404
                ("No data found for loco number: " ++ loco_no))
  else
    (* last_updated = last_refresh_time or datetime.utcnow() *)
    match last_refresh_time w with
    | Some t =>
        ret (mkLocoSummaryResponse loco_no details schedules failures
               modifications t)
    | None =>
        t <- now env ;;
        ret (mkLocoSummaryResponse loco_no details schedules failures
               modifications t)
    end.

Definition get_refresh_status : M RefreshStatusResponse :=
  w <- get_world ;;
  let loco_count := count_documents (db w) loco_data in
  let schedule_count := count_documents (db w) schedule_data in
  let failure_count := count_documents (db w) failure_data in
  let modifications_count := count_documents (db w) modifications_data in
  let next_refresh :=
    match last_refresh_time w with
    | Some last => Some (last + timedelta_hours REFRESH_INTERVAL_HOURS)%Z
    | None => None
    end in
  ret {| status_text :=
           match last_refresh_time w with
           | Some _ => "active"
           | None => "pending"
           end;
         last_refresh := last_refresh_time w;
         next_refresh := next_refresh;
         records_count :=
           [ ("loco_data", loco_count);
             ("schedule_data", schedule_count);
             ("failure_data", failure_count);
             ("modifications_data", modifications_count) ] |}.

End Queries.

(** ** The search pipeline

    [search_locos] hands MongoDB the pattern [".*" + partial + ".*"] with
    option [i].  The store's regular-expression engine is modelled on the
    fragment that the two fixed [.*] need and that plain text stays in: a
    pattern is a sequence of atoms, each optionally followed by [*]; an atom
    is [.] (any character but a line feed) or a literal, which is a printable
    ASCII character other than the metacharacters.  A pattern outside the
    fragment is left to the store's own engine, [store_regex] of the
    environment: when the store rejects it, [aggregate] raises pymongo's
    [OperationFailure]. *)

Module Regex.

Inductive atom : Type :=
  | AnyChar
  | Lit (c : ascii).

(** An atom and whether a [*] follows it. *)
Definition item : Type := (atom * bool)%type.

Definition is_meta (c : ascii) : bool :=
  PyStr.contains (String c "") "\^$.[]|()?*+{}".

Definition plain_char (c : ascii) : bool :=
  let n := nat_of_ascii c in
  ((32 <=? n) && (n <=? 126))%nat && negb (is_meta c).

Definition atom_of (c : ascii) : option atom :=
  if (c =? ".")%char then Some AnyChar
  else if plain_char c then Some (Lit c)
  else None.

Fixpoint parse (p : string) : option (list item) :=
  match p with
  | EmptyString => Some []
  | String c p' =>
      match atom_of c with
      | None => None
      | Some a =>
          match p' with
          | String q p'' =>
              if (q =? "*")%char
              then option_map (cons (a, true)) (parse p'')
              else option_map (cons (a, false)) (parse p')
          | EmptyString => option_map (cons (a, false)) (parse p')
          end
      end
  end.

(** Lower case of an ASCII letter; other characters are unchanged. *)
Definition lower (c : ascii) : ascii :=
  let n := nat_of_ascii c in
  if ((65 <=? n) && (n <=? 90))%nat then ascii_of_nat (n + 32) else c.

Fixpoint lower_str (s : string) : string :=
  match s with
  | EmptyString => EmptyString
  | String c s' => String (lower c) (lower_str s')
  end.

(** One character against one atom, under option [i]. *)
Definition atom_match (a : atom) (c : ascii) : bool :=
  match a with
  | AnyChar => negb (c =? "010")%char
  | Lit l => (lower c =? lower l)%char
  end.

(** Does the pattern match at the start of [s]? *)
Fixpoint match_here (r : list item) (s : string) {struct r} : bool :=
  match r with
  | [] => true
  | (a, false) :: rest =>
      match s with
      | EmptyString => false
      | String c s' => atom_match a c && match_here rest s'
      end
  | (a, true) :: rest =>
      (fix star (s : string) : bool :=
         match_here rest s ||
         match s with
         | EmptyString => false
         | String c s' => atom_match a c && star s'
         end) s
  end.

(** [$regex] is not anchored: the pattern may match anywhere in [s]. *)
Fixpoint search (r : list item) (s : string) : bool :=
  match_here r s ||
  match s with
  | EmptyString => false
  | String _ s' => search r s'
  end.

End Regex.

(** [$sort: {_id: 1}] on strings: ascending in the binary order of the
    text, realised here by insertion. *)
Fixpoint insert_sorted (x : string) (l : list string) : list string :=
  match l with
  | [] => [x]
  | y :: l' => if (x <=? y)%string then x :: l else y :: insert_sorted x l'
  end.

Fixpoint sort_ids (l : list string) : list string :=
  match l with
  | [] => []
  | x :: l' => insert_sorted x (sort_ids l')
  end.

Section Search.

Variable env : Env.

(** The texts a [$regex] pattern with option [i] matches, [None] when the
    store rejects the pattern. *)
Definition regex_matcher (pattern : string) : option (string -> bool) :=
  match Regex.parse pattern with
  | Some r => Some (Regex.search r)
  | None => store_regex env pattern
  end.

Definition search_locos (partial_loco_no : string) : M (list string) :=
  check_and_refresh_data env ;;;
  let pattern := (".*" ++ partial_loco_no ++ ".*")%string in
  match regex_matcher pattern with
  | None => raise (OperationFailure pattern)
  | Some matches =>
      w <- get_world ;;
      (* $match *)
      let matched :=
        filter (fun doc => matches (loco_no doc))
               (coll (db w) loco_data) in
      (* $group *)
      let grouped := nodup string_dec (map loco_no matched) in
      (* $sort, $limit and to_list(20) *)
      let results := firstn 20 (firstn 20 (sort_ids grouped)) in
      ret (filter (fun id => PyStr.truthy (PyStr.strip id)) results)
  end.

End Search.

(** ** What a refresh leaves behind *)

(** The documents a [for] loop of [refresh_all_data] builds from [rows]
    when the clock has been read [k] times before. *)
Fixpoint docs_from (env : Env) (cname : string) (key_of : Row -> string)
  (rows : list Row) (k : nat) : list Document :=
  match rows with
  | [] => []
  | row :: rest =>
      {| collection := cname; loco_no := key_of row; data := row;
         updated_at := utcnow env k |}
      :: docs_from env cname key_of rest (S k)
  end.

(** The world a refresh leaves when the four fetches succeed. *)
Definition refreshed (env : Env) (w : World) (r1 r2 r3 r4 : list Row)
  : World :=
  let k1 := clock_reads w in
  let k2 := k1 + List.length r1 in
  let k3 := k2 + List.length r2 in
  let k4 := k3 + List.length r3 in
  let k5 := k4 + List.length r4 in
  mkWorld
    (mkDatabase
       (docs_from env "loco_data" loco_list_key r1 k1)
       (docs_from env "schedule_data" schedule_key r2 k2)
       (docs_from env "failure_data" failure_key r3 k3)
       (docs_modifications (db w)
        ++ docs_from env "modifications_data" modifications_key r4 k4))
    (Some (utcnow env k5))
    (S k5).

(** The sheets in the order [refresh_all_data] fetches them. *)
Definition sheet_order : list string :=
  ["Loco_list"; "Loco_Schedules"; "Traction_failures"; "WAG7_Modifications"].

(** The first sheet, in fetch order, whose download fails. *)
Definition first_failing (env : Env) : option string :=
  find (fun name => match sheet env name with None => true | Some _ => false end)
       sheet_order.

(** The database a refresh leaves behind when a fetch fails: the three
    collections cleared up front hold what this run inserted before the
    failure, and the modifications collection is as it was. *)
Definition after_failed_refresh (env : Env) (w : World) : Database :=
  let k1 := clock_reads w in
  let mods := docs_modifications (db w) in
  match sheet env "Loco_list" with
  | None => mkDatabase [] [] [] mods
  | Some r1 =>
      let k2 := k1 + List.length r1 in
      let d1 := docs_from env "loco_data" loco_list_key r1 k1 in
      match sheet env "Loco_Schedules" with
      | None => mkDatabase d1 [] [] mods
      | Some r2 =>
          let k3 := k2 + List.length r2 in
          let d2 := docs_from env "schedule_data" schedule_key r2 k2 in
          match sheet env "Traction_failures" with
          | None => mkDatabase d1 d2 [] mods
          | Some r3 =>
              mkDatabase d1 d2
                (docs_from env "failure_data" failure_key r3 k3) mods
          end
      end
  end.

(** ** The staleness test *)

(** Whether [check_and_refresh_data] refreshes; the clock is read only when
    a refresh time is known. *)
Definition stale (env : Env) (w : World) : bool :=
  match last_refresh_time w with
  | None => true
  | Some last =>
      (utcnow env (clock_reads w) - last
       >? timedelta_hours REFRESH_INTERVAL_HOURS)%Z
  end.

(** The world once the staleness test has been evaluated. *)
Definition after_check (w : World) : World :=
  match last_refresh_time w with
  | None => w
  | Some _ => mkWorld (db w) (last_refresh_time w) (S (clock_reads w))
  end.

(** All four projections are empty. *)
Definition no_data (d : Database) (id : string) : bool :=
  is_nil (details_of d id) && is_nil (schedules_of d id)
  && is_nil (failures_of d id) && is_nil (modifications_of d id).

(** ** Order of identifiers and plain text *)

(** The order of [$sort]. *)
Definition str_le (a b : string) : Prop := (a <=? b)%string = true.

(** The items of a literal text. *)
Definition lits (p : string) : list Regex.item :=
  map (fun c => (Regex.Lit c, false)) (list_ascii_of_string p).

(** Text made of literals of the regex fragment only. *)
Fixpoint plain (s : string) : bool :=
  match s with
  | EmptyString => true
  | String c s' => Regex.plain_char c && plain s'
  end.

(** ** Requests over time *)

Inductive Request : Type :=
  | ManualRefresh
  | GetSummary (raw_loco_no : string)
  | SearchLocos (partial_loco_no : string)
  | GetStatus.

(** The world after a request has been served, whatever it answered. *)
Definition serve (env : Env) (rq : Request) (w : World) : World :=
  match rq with
  | ManualRefresh => snd (refresh_all_data env w)
  | GetSummary raw => snd (get_loco_summary env raw w)
  | SearchLocos p => snd (search_locos env p w)
  | GetStatus => snd (get_refresh_status w)
  end.

(** The completion time of a call of [refresh_all_data] from [w]: the last
    clock reading it took, when it returned normally. *)
Definition refresh_completion (env : Env) (w : World) : option Z :=
  match refresh_all_data env w with
  | (inr _, w') => Some (utcnow env (pred (clock_reads w')))
  | (inl _, _) => None
  end.

(** The completion time of the refresh that serving [rq] performs, when it
    performs one and that one succeeds. *)
Definition refresh_completed (env : Env) (rq : Request) (w : World)
  : option Z :=
  match rq with
  | ManualRefresh => refresh_completion env w
  | GetSummary _ | SearchLocos _ =>
      if stale env w then refresh_completion env (after_check w) else None
  | GetStatus => None
  end.

(** Serving a sequence of requests, each against the outside world of its
    moment; alongside, the completion time of the latest successful
    refresh so far. *)
Fixpoint run (trace : list (Env * Request)) (w : World) (latest : option Z)
  : World * option Z :=
  match trace with
  | [] => (w, latest)
  | (env, rq) :: rest =>
      run rest (serve env rq w)
          (match refresh_completed env rq w with
           | Some t => Some t
           | None => latest
           end)
  end.

(** ** Concrete sources used in the examples *)

Definition sheets (l1 l2 l3 l4 : option (list Row)) (name : string)
  : option (list Row) :=
  if (name =? "Loco_list")%string then l1
  else if (name =? "Loco_Schedules")%string then l2
  else if (name =? "Traction_failures")%string then l3
  else if (name =? "WAG7_Modifications")%string then l4
  else None.

(** A store that rejects every pattern outside the interpreted fragment;
    the examples send it none. *)
Definition rejects_rest : string -> option (string -> bool) := fun _ => None.

(** A clock that advances by one microsecond per reading. *)
Definition ticking (n : nat) : Z := (1700000000000000 + Z.of_nat n)%Z.

Definition world0 : World := initial_world empty_db.

(** The Loco_list row of the specification's scenario. *)
Definition env_loco : Env :=
  mkEnv (sheets (Some [[("Loco No.", "27865.0"); ("Type", "WAG7");
                        ("Zone", "SECR")]])
                (Some []) (Some []) (Some []))
        ticking rejects_rest.

(** A Loco_Schedules row whose identifier carries the float artifact. *)
Definition env_schedule : Env :=
  mkEnv (sheets (Some [])
                (Some [[("Loco No. ", "27865.0");
                        ("Incoming Date ", "2024-01-01"); ("Sch ", "IA");
                        ("Outgoing Date ", "2024-01-03")]])
                (Some []) (Some []))
        ticking rejects_rest.

(** One WAG7_Modifications row. *)
Definition env_mods : Env :=
  mkEnv (sheets (Some []) (Some []) (Some [])
                (Some [[("Loco No.", "27865"); ("Cab AC", "Provided")]]))
        ticking rejects_rest.

(** The remote source is unreachable. *)
Definition env_down : Env :=
  mkEnv (sheets None None None None) ticking rejects_rest.

(** Two locomotives in Loco_list. *)
Definition env_two : Env :=
  mkEnv (sheets (Some [[("Loco No.", "27865"); ("Zone", "SECR")];
                       [("Loco No.", "31278"); ("Zone", "SECR")]])
                (Some []) (Some []) (Some []))
        ticking rejects_rest.

(** Six hours, in microseconds. *)
Definition six_hours : Z := (6 * 3600 * 1000000)%Z.

(** ** The remaining handlers of server.py *)

(** [try: body / except Exception as e: handler(e)]: the handler runs in
    the world the body left when it raised. *)
Definition catch {A} (body : M A) (handler : exn -> M A) : M A :=
  fun w =>
    match body w with
    | (inl e, w') => handler e w'
    | (inr a, w') => (inr a, w')
    end.

(** The dictionary [manual_refresh] returns; [reply_status] is its key
    [status]. *)
Record RefreshReply : Type := mkRefreshReply {
  reply_status : string;
  message : string;
  counts : list (string * nat);
  refreshed_at : option Z
}.

Section Lifecycle.

Variable env : Env.

(** [str(e)], which the exception classes of the libraries define. *)
Variable str_of_exn : exn -> string.

Definition manual_refresh : M RefreshReply :=
  catch
    (counts <- refresh_all_data env ;;
     w <- get_world ;;
     ret {| reply_status := "success";
            message := "Data refreshed successfully";
            counts := counts;
            refreshed_at := last_refresh_time w |})
    (fun e =>
       raise (HTTPException 500 ("Refresh failed: " ++ str_of_exn e))).

Definition startup_event : M unit :=
  catch (refresh_all_data env ;;; ret tt) (fun e => ret tt).

End Lifecycle.

(** How an optional field [v] of a schedule or failure item stands to the
    cell of [column] in the stored row [d]: absent when the column is
    missing, absent exactly when the cell is blank, and otherwise the
    stripped cell, which is not empty. *)
Definition absent_or_stripped (column : string) (d : Row) (v : option string)
  : Prop :=
  (~ In column (map fst d) -> v = None) /\
  (v = None <-> PyStr.strip (row_get column d "") = "") /\
  (forall s, v = Some s ->
             s = PyStr.strip (row_get column d "") /\ s <> "" /\
             PyStr.strip s = s).

(** Every stored identifier is its own [strip()]. *)
Definition stripped_db (d : Database) : Prop :=
  forall c doc, In doc (coll d c) -> PyStr.strip (loco_no doc) = loco_no doc.

(** Text made of the decimal digits only. *)
Fixpoint digits (s : string) : bool :=
  match s with
  | EmptyString => true
  | String c s' =>
      ((48 <=? nat_of_ascii c) && (nat_of_ascii c <=? 57))%nat && digits s'
  end.

(** ** The API tester (backend_test.py)

    [LocoAPITester] sends one HTTP request per test and keeps three
    counters.  The network is outside the program: [send n method url] is
    what the [n]-th request of the run meets, either an exception of
    [requests] with its text, or a response with its status code and, when
    the body parses, its JSON.  Printing is left out; the arguments [data]
    and [timeout] only travel to [requests]. *)

Module Tester.

Section WithNetwork.

(** JSON values and the empty dictionary [{}]. *)
Variable J : Type.
Variable empty_dict : J.

Inductive Outcome : Type :=
  | Raises (text : string)
  | Responds (status_code : Z) (json : option J).

Variable send : nat -> string -> string -> Outcome.

(** [str(e)] of the [UnboundLocalError] raised when [response] is read
    without having been assigned. *)
Variable unbound_response : string.

Record LocoAPITester : Type := mkTester {
  base_url : string;
  api_url : string;
  tests_run : nat;
  tests_passed : nat;
  failed_tests : list string
}.

(** The tester and the number of requests sent so far. *)
Definition State : Type := (LocoAPITester * nat)%type.

(** [LocoAPITester(base_url)] *)
Definition init (base_url : string) : LocoAPITester :=
  {| base_url := base_url;
     api_url := (base_url ++ "/api")%string;
     tests_run := 0;
     tests_passed := 0;
     failed_tests := [] |}.

(** [str(n)] of an [int]. *)
Definition str_of_int (n : Z) : string := NilZero.string_of_int (Z.to_int n).

Definition passed (t : LocoAPITester) : LocoAPITester :=
  {| base_url := base_url t; api_url := api_url t;
     tests_run := tests_run t + 1;
     tests_passed := tests_passed t + 1;
     failed_tests := failed_tests t |}.

Definition failed (t : LocoAPITester) (entry : string) : LocoAPITester :=
  {| base_url := base_url t; api_url := api_url t;
     tests_run := tests_run t + 1;
     tests_passed := tests_passed t;
     failed_tests := failed_tests t ++ [entry] |}.

Definition run_test (name method endpoint : string) (expected_status : Z)
  (st : State) : (bool * J) * State :=
  let (t, sent) := st in
  let url :=
    if PyStr.truthy endpoint
    then (api_url t ++ "/" ++ endpoint)%string
    else api_url t in
  if (method =? "GET")%string || (method =? "POST")%string
  then
    match send sent method url with
    | Responds status_code json =>
        if (status_code =? expected_status)%Z
        then ((true, match json with Some j => j | None => empty_dict end),
              (passed t, S sent))
        else ((false, empty_dict),
              (failed t (name ++ ": Expected " ++ str_of_int expected_status
                         ++ ", got " ++ str_of_int status_code)%string,
               S sent))
    | Raises text =>
        ((false, empty_dict), (failed t (name ++ ": " ++ text)%string, S sent))
    end
  else
    ((false, empty_dict),
     (failed t (name ++ ": " ++ unbound_response)%string, sent)).

(** One call of [run_test]: name, method, endpoint, expected status. *)
Definition Call : Type := (string * string * string * Z)%type.

(** A sequence of calls on one tester. *)
Fixpoint run_tests (calls : list Call) (st : State) : State :=
  match calls with
  | [] => st
  | (name, method, endpoint, expected) :: rest =>
      run_tests rest (snd (run_test name method endpoint expected st))
  end.

(** The exit code of [main]: [0 if tests_passed == tests_run else 1]. *)
Definition exit_code (t : LocoAPITester) : Z :=
  if (tests_passed t =? tests_run t)%nat then 0%Z else 1%Z.

End WithNetwork.

End Tester.

(** * Lemmas *)

(** ** Facts about the string primitives *)

Section StringFacts.

Import PyStr.

Lemma string_pair_ind (P : string -> Prop) :
  P "" ->
  (forall c, P (String c "")) ->
  (forall c d s, P s -> P (String d s) -> P (String c (String d s))) ->
  forall s, P s.
Proof.
  intros H0 H1 H2.
  assert (both : forall s, P s /\ forall c, P (String c s)).
  { induction s as [|d s [IHs IHc]].
    - split; [exact H0 | exact H1].
    - split; [apply IHc | intro c; apply H2; [exact IHs | apply IHc]]. }
  intro s. apply both.
Qed.

Lemma lstrip_length s : String.length (lstrip s) <= String.length s.
Proof.
  induction s as [|c s IH]; simpl; [lia|].
  destruct (isspace c); simpl; lia.
Qed.

Lemma rstrip_length s : String.length (rstrip s) <= String.length s.
Proof.
  induction s as [|c s IH]; simpl; [lia|].
  destruct (rstrip s) eqn:E.
  - destruct (isspace c); simpl; lia.
  - simpl in *. lia.
Qed.

Lemma strip_length s : String.length (strip s) <= String.length s.
Proof.
  unfold strip. pose proof (lstrip_length (rstrip s)).
  pose proof (rstrip_length s). lia.
Qed.

Lemma rstrip_idem s : rstrip (rstrip s) = rstrip s.
Proof.
  induction s as [|c s IH]; simpl; [reflexivity|].
  destruct (rstrip s) as [|d r] eqn:E.
  - destruct (isspace c) eqn:Ec; simpl; [reflexivity|].
    rewrite Ec. reflexivity.
  - change (rstrip (String c (String d r))) with
      (match rstrip (String d r) with
       | EmptyString => if isspace c then EmptyString else String c EmptyString
       | r' => String c r'
       end).
    rewrite IH. reflexivity.
Qed.

Lemma lstrip_keeps_rstripped s : rstrip s = s -> rstrip (lstrip s) = lstrip s.
Proof.
  induction s as [|c s IH]; simpl; intro H; [reflexivity|].
  destruct (isspace c) eqn:Ec.
  - apply IH. destruct (rstrip s) as [|d r] eqn:E.
    + discriminate H.
    + injection H as H. exact H.
  - simpl. rewrite Ec. exact H.
Qed.

Lemma lstrip_idem s : lstrip (lstrip s) = lstrip s.
Proof.
  induction s as [|c s IH]; simpl; [reflexivity|].
  destruct (isspace c) eqn:Ec; [exact IH|].
  simpl. rewrite Ec. reflexivity.
Qed.

Lemma strip_idem s : strip (strip s) = strip s.
Proof.
  unfold strip.
  rewrite (lstrip_keeps_rstripped (rstrip s) (rstrip_idem s)).
  apply lstrip_idem.
Qed.

Lemma replace_dot0_length s :
  String.length (replace_dot0 s) <= String.length s.
Proof.
  induction s as [| c | c d s IH1 IH2] using string_pair_ind;
    [simpl; lia | simpl; lia |].
  change (replace_dot0 (String c (String d s))) with
    (if (c =? ".")%char && (d =? "0")%char
     then replace_dot0 s else String c (replace_dot0 (String d s))).
  destruct ((c =? ".")%char && (d =? "0")%char); simpl in *; lia.
Qed.

Lemma prefix_cons a p c s :
  prefix (String a p) (String c s) = (c =? a)%char && prefix p s.
Proof.
  cbn [prefix]. destruct (ascii_dec a c) as [e|n].
  - subst. rewrite Ascii.eqb_refl. reflexivity.
  - apply Ascii.eqb_neq in n. rewrite Ascii.eqb_sym, n. reflexivity.
Qed.

Lemma prefix_nil s : prefix "" s = true.
Proof. destruct s; reflexivity. Qed.

Lemma prefix_dot0 c d s :
  prefix ".0" (String c (String d s)) = (c =? ".")%char && (d =? "0")%char.
Proof.
  rewrite !prefix_cons, prefix_nil, andb_true_r. reflexivity.
Qed.

Lemma replace_dot0_fixed s : contains ".0" s = false -> replace_dot0 s = s.
Proof.
  induction s as [| c | c d s IH1 IH2] using string_pair_ind;
    [reflexivity | reflexivity |].
  intro H.
  change (contains ".0" (String c (String d s))) with
    (prefix ".0" (String c (String d s)) || contains ".0" (String d s)) in H.
  rewrite prefix_dot0 in H. apply orb_false_iff in H as [Hp Hc].
  change (replace_dot0 (String c (String d s))) with
    (if (c =? ".")%char && (d =? "0")%char
     then replace_dot0 s else String c (replace_dot0 (String d s))).
  rewrite Hp, (IH2 Hc). reflexivity.
Qed.

Lemma replace_dot0_shrinks s :
  contains ".0" s = true ->
  String.length (replace_dot0 s) < String.length s.
Proof.
  induction s as [| c | c d s IH1 IH2] using string_pair_ind.
  - discriminate.
  - cbn [contains]. rewrite prefix_cons. cbn [prefix contains].
    rewrite andb_false_r. discriminate.
  - intro H.
    change (contains ".0" (String c (String d s))) with
      (prefix ".0" (String c (String d s)) || contains ".0" (String d s)) in H.
    rewrite prefix_dot0 in H.
    change (replace_dot0 (String c (String d s))) with
      (if (c =? ".")%char && (d =? "0")%char
       then replace_dot0 s else String c (replace_dot0 (String d s))).
    destruct ((c =? ".")%char && (d =? "0")%char).
    + pose proof (replace_dot0_length s). simpl. lia.
    + simpl in H. specialize (IH2 H). simpl in *. lia.
Qed.

Lemma replace_dot0_cons_other c s :
  (c =? ".")%char = false ->
  replace_dot0 (String c s) = String c (replace_dot0 s).
Proof.
  intro H. destruct s as [|d s]; [reflexivity|].
  cbn [replace_dot0]. rewrite H. reflexivity.
Qed.

Lemma contains_cons sub c s :
  contains sub (String c s) = prefix sub (String c s) || contains sub s.
Proof. reflexivity. Qed.

(** Removing the [.0] occurrences of a text without two adjacent dots
    leaves no [.0] behind. *)
Lemma replace_dot0_clean s :
  contains ".." s = false -> contains ".0" (replace_dot0 s) = false.
Proof.
  induction s as [| c | c d s IH1 IH2] using string_pair_ind.
  - reflexivity.
  - intros _. cbn [replace_dot0]. rewrite contains_cons, prefix_cons.
    cbn [prefix contains]. now rewrite andb_false_r.
  - rewrite contains_cons, prefix_cons. intro H.
    apply orb_false_iff in H as [Hp Hc].
    change (replace_dot0 (String c (String d s))) with
      (if (c =? ".")%char && (d =? "0")%char
       then replace_dot0 s else String c (replace_dot0 (String d s))).
    destruct ((c =? ".")%char && (d =? "0")%char) eqn:E.
    + apply IH1. rewrite contains_cons in Hc.
      now apply orb_false_iff in Hc as [_ Hc].
    + rewrite contains_cons, (IH2 Hc), orb_false_r, prefix_cons.
      destruct (c =? ".")%char eqn:Ec; [|reflexivity].
      cbn [andb] in E, Hp |- *.
      rewrite prefix_cons, prefix_nil, andb_true_r in Hp.
      rewrite (replace_dot0_cons_other d s Hp), prefix_cons, E. reflexivity.
Qed.

Lemma contains_lstrip sub s :
  contains sub (lstrip s) = true -> contains sub s = true.
Proof.
  induction s as [|c s IH]; cbn [lstrip]; [auto|].
  destruct (isspace c); [|auto].
  intro H. rewrite contains_cons, (IH H). apply orb_true_r.
Qed.

Lemma prefix_rstrip sub s :
  prefix sub (rstrip s) = true -> prefix sub s = true.
Proof.
  revert sub. induction s as [|c s IH]; intro sub; [auto|].
  destruct sub as [|a sub]; [reflexivity|].
  cbn [rstrip]. destruct (rstrip s) as [|d r] eqn:E.
  - destruct (isspace c); [discriminate|].
    rewrite !prefix_cons. intro H. apply andb_true_iff in H as [Ha Hs].
    rewrite Ha. apply (IH sub Hs).
  - rewrite !prefix_cons. intro H. apply andb_true_iff in H as [Ha Hs].
    rewrite Ha. apply (IH sub Hs).
Qed.

Lemma contains_rstrip sub s :
  contains sub (rstrip s) = true -> contains sub s = true.
Proof.
  induction s as [|c s IH]; [auto|].
  intro H. rewrite contains_cons.
  assert (Hcases : prefix sub (rstrip (String c s)) = true
                   \/ contains sub (rstrip s) = true).
  { revert H. cbn [rstrip]. destruct (rstrip s) as [|d r] eqn:E.
    - destruct (isspace c).
      + cbn [contains]. rewrite orb_false_r. auto.
      + rewrite contains_cons. intro H.
        apply orb_true_iff in H as [H|H]; auto.
    - rewrite contains_cons. intro H.
      apply orb_true_iff in H as [H|H]; auto. }
  destruct Hcases as [Hp|Hc].
  - now rewrite (prefix_rstrip _ _ Hp).
  - rewrite (IH Hc). apply orb_true_r.
Qed.

Lemma contains_strip sub s :
  contains sub (strip s) = true -> contains sub s = true.
Proof.
  unfold strip. intro H. now apply contains_rstrip, contains_lstrip.
Qed.

End StringFacts.

(** ** Running the refresh *)

Lemma docs_from_length env cname key_of rows k :
  List.length (docs_from env cname key_of rows k) = List.length rows.
Proof.
  revert k. induction rows as [|row rest IH]; intro k; simpl;
    [reflexivity | now rewrite IH].
Qed.

Lemma docs_from_keys env cname key_of rows k :
  map loco_no (docs_from env cname key_of rows k) = map key_of rows.
Proof.
  revert k. induction rows as [|row rest IH]; intro k; simpl;
    [reflexivity | now rewrite IH].
Qed.

Lemma build_records_run env cname key_of rows w :
  build_records env cname key_of rows w =
  (inr (docs_from env cname key_of rows (clock_reads w)),
   mkWorld (db w) (last_refresh_time w)
           (clock_reads w + List.length rows)).
Proof.
  revert w. induction rows as [|row rest IH]; intro w.
  - simpl. unfold ret. destruct w; simpl. now rewrite Nat.add_0_r.
  - simpl. unfold bind, now. rewrite IH. simpl. unfold ret.
    now rewrite Nat.add_succ_r.
Qed.

Lemma db_set_same d c : db_set d c (coll d c ++ []) = d.
Proof. destruct d, c; simpl; now rewrite app_nil_r. Qed.

Lemma insert_if_any_run c records w :
  insert_if_any c records w =
  (inr tt, mkWorld (db_set (db w) c (coll (db w) c ++ records))
                   (last_refresh_time w) (clock_reads w)).
Proof.
  destruct records as [|r rs]; [|reflexivity].
  simpl. unfold ret. rewrite db_set_same. now destruct w.
Qed.

Ltac run_step :=
  unfold bind at 1;
  first [ rewrite build_records_run | rewrite insert_if_any_run | idtac ];
  cbn [delete_many ret now set_last_refresh_time get_world raise
       db db_set coll docs_loco docs_schedule docs_failure
       docs_modifications last_refresh_time clock_reads app].

Lemma refresh_all_data_ok env w r1 r2 r3 r4 :
  sheet env "Loco_list" = Some r1 ->
  sheet env "Loco_Schedules" = Some r2 ->
  sheet env "Traction_failures" = Some r3 ->
  sheet env "WAG7_Modifications" = Some r4 ->
  refresh_all_data env w =
  (inr [ ("loco_data", List.length r1);
         ("schedule_data", List.length r2);
         ("failure_data", List.length r3) ],
   refreshed env w r1 r2 r3 r4).
Proof.
  intros H1 H2 H3 H4.
  unfold refresh_all_data, fetch_sheet_data.
  change (SHEET_NAMES "loco_list") with "Loco_list".
  change (SHEET_NAMES "loco_schedules") with "Loco_Schedules".
  change (SHEET_NAMES "traction_failures") with "Traction_failures".
  change (SHEET_NAMES "wag7_modifications") with "WAG7_Modifications".
  rewrite H1, H2, H3, H4.
  repeat run_step.
  unfold refreshed. rewrite !docs_from_length. reflexivity.
Qed.

Lemma refresh_all_data_fails env w failed :
  first_failing env = Some failed ->
  fst (refresh_all_data env w) =
    inl (HTTPException 500 ("Failed to fetch " ++ failed ++ " data")) /\
  last_refresh_time (snd (refresh_all_data env w)) = last_refresh_time w /\
  db (snd (refresh_all_data env w)) = after_failed_refresh env w.
Proof.
  unfold first_failing, after_failed_refresh, sheet_order.
  cbn [find]. intro H.
  unfold refresh_all_data, fetch_sheet_data.
  change (SHEET_NAMES "loco_list") with "Loco_list".
  change (SHEET_NAMES "loco_schedules") with "Loco_Schedules".
  change (SHEET_NAMES "traction_failures") with "Traction_failures".
  change (SHEET_NAMES "wag7_modifications") with "WAG7_Modifications".
  destruct (sheet env "Loco_list") as [r1|];
    [|injection H as <-; repeat run_step; auto].
  destruct (sheet env "Loco_Schedules") as [r2|];
    [|injection H as <-; repeat run_step; auto].
  destruct (sheet env "Traction_failures") as [r3|];
    [|injection H as <-; repeat run_step; auto].
  destruct (sheet env "WAG7_Modifications") as [r4|];
    [discriminate H|injection H as <-; repeat run_step; auto].
Qed.

Lemma first_failing_exists env name :
  In name sheet_order -> sheet env name = None ->
  exists failed, first_failing env = Some failed.
Proof.
  intros Hin Hnone. unfold first_failing.
  destruct (find _ sheet_order) as [f|] eqn:E; [now exists f|].
  exfalso. apply (find_none _ _ E) in Hin. now rewrite Hnone in Hin.
Qed.

Lemma first_failing_sound env failed :
  first_failing env = Some failed ->
  In failed sheet_order /\ sheet env failed = None.
Proof.
  unfold first_failing. intro H. apply find_some in H as [Hin Hf].
  split; [exact Hin|]. now destruct (sheet env failed).
Qed.

Lemma first_failing_none env :
  first_failing env = None ->
  exists r1 r2 r3 r4,
    sheet env "Loco_list" = Some r1 /\
    sheet env "Loco_Schedules" = Some r2 /\
    sheet env "Traction_failures" = Some r3 /\
    sheet env "WAG7_Modifications" = Some r4.
Proof.
  unfold first_failing, sheet_order. cbn [find].
  destruct (sheet env "Loco_list") as [r1|]; [|discriminate].
  destruct (sheet env "Loco_Schedules") as [r2|]; [|discriminate].
  destruct (sheet env "Traction_failures") as [r3|]; [|discriminate].
  destruct (sheet env "WAG7_Modifications") as [r4|]; [|discriminate].
  intros _. now exists r1, r2, r3, r4.
Qed.

(** A refresh succeeds exactly when the four fetches do. *)
Lemma refresh_all_data_inr env w counts w' :
  refresh_all_data env w = (inr counts, w') ->
  exists r1 r2 r3 r4,
    sheet env "Loco_list" = Some r1 /\
    sheet env "Loco_Schedules" = Some r2 /\
    sheet env "Traction_failures" = Some r3 /\
    sheet env "WAG7_Modifications" = Some r4 /\
    counts = [ ("loco_data", List.length r1);
               ("schedule_data", List.length r2);
               ("failure_data", List.length r3) ] /\
    w' = refreshed env w r1 r2 r3 r4.
Proof.
  intro H. destruct (first_failing env) as [failed|] eqn:E.
  - destruct (refresh_all_data_fails env w failed E) as [Hf _].
    rewrite H in Hf. discriminate Hf.
  - destruct (first_failing_none env E) as (r1 & r2 & r3 & r4 & H1 & H2 & H3 & H4).
    exists r1, r2, r3, r4. repeat (split; [assumption|]).
    rewrite (refresh_all_data_ok env w r1 r2 r3 r4 H1 H2 H3 H4) in H.
    injection H as <- <-. auto.
Qed.

(** ** Running the staleness check and the summary *)

Lemma check_and_refresh_data_run env w :
  check_and_refresh_data env w =
  if stale env w
  then match refresh_all_data env (after_check w) with
       | (inl e, w') => (inl e, w')
       | (inr _, w') => (inr tt, w')
       end
  else (inr tt, after_check w).
Proof.
  unfold check_and_refresh_data, stale, after_check.
  unfold bind at 1. cbn [get_world].
  destruct (last_refresh_time w) as [last|] eqn:E.
  - unfold bind at 1. cbn [now]. rewrite E.
    destruct (_ >? _)%Z.
    + unfold bind. destruct (refresh_all_data env _) as [[e|c] w']; reflexivity.
    + reflexivity.
  - unfold bind. destruct (refresh_all_data env w) as [[e|c] w']; reflexivity.
Qed.

Lemma check_and_refresh_data_fresh env w w1 :
  check_and_refresh_data env w = (inr tt, w1) ->
  exists t, last_refresh_time w1 = Some t.
Proof.
  rewrite check_and_refresh_data_run. destruct (stale env w) eqn:Es.
  - destruct (refresh_all_data env (after_check w)) as [[e|c] w'] eqn:Er;
      [discriminate|].
    intro H. injection H as <-.
    apply refresh_all_data_inr in Er as (r1 & r2 & r3 & r4 & _ & _ & _ & _ & _ & ->).
    eexists. reflexivity.
  - intro H. injection H as <-. unfold stale, after_check in *.
    destruct (last_refresh_time w) as [last|] eqn:E; [|discriminate].
    exists last. reflexivity.
Qed.

Lemma lookup_ModificationDetail :
  lookup_global "ModificationDetail" = raise (NameError "ModificationDetail").
Proof. reflexivity. Qed.

Lemma modification_details_run d w :
  modification_details d w =
  match filter shown d with
  | [] => (inr [], w)
  | _ :: _ => (inl (NameError "ModificationDetail"), w)
  end.
Proof.
  induction d as [|kv rest IH]; [reflexivity|].
  cbn [modification_details filter]. destruct (shown kv); [|exact IH].
  rewrite lookup_ModificationDetail. reflexivity.
Qed.

Lemma find_modifications_run d id w :
  match find_one d modifications_data id with
  | Some doc => modification_details (data doc)
  | None => ret []
  end w =
  match modifications_of d id with
  | [] => (inr [], w)
  | _ :: _ => (inl (NameError "ModificationDetail"), w)
  end.
Proof.
  unfold modifications_of. destruct (find_one d modifications_data id).
  - apply modification_details_run.
  - reflexivity.
Qed.

Lemma get_loco_summary_run env raw w w1 t :
  check_and_refresh_data env w = (inr tt, w1) ->
  last_refresh_time w1 = Some t ->
  get_loco_summary env raw w =
  let id := PyStr.strip raw in
  match modifications_of (db w1) id with
  | _ :: _ => (inl (NameError "ModificationDetail"), w1)
  | [] =>
      if no_data (db w1) id
      then (inl (HTTPException 404 ("No data found for loco number: " ++ id)),
            w1)
      else (inr (mkLocoSummaryResponse id (details_of (db w1) id)
                   (schedules_of (db w1) id) (failures_of (db w1) id) [] t),
            w1)
  end.
Proof.
  intros Hc Ht. unfold get_loco_summary.
  unfold bind at 1. rewrite Hc.
  unfold bind at 1. cbn [get_world].
  unfold bind at 1. rewrite find_modifications_run.
  unfold no_data. cbv zeta.
  destruct (modifications_of (db w1) (PyStr.strip raw)); [|reflexivity].
  cbn [is_nil]. rewrite Ht.
  destruct (_ && _ && _ && true); reflexivity.
Qed.

(** ** Facts about the search pipeline *)

Section SearchFacts.

Import Regex.

Lemma str_le_cases a b : str_le a b <-> a = b \/ String_as_OT.lt a b.
Proof.
  unfold str_le, String.leb.
  pose proof (String_as_OT.cmp_eq a b) as He.
  pose proof (String_as_OT.cmp_lt a b) as Hl.
  pose proof (String_as_OT.cmp_lt b a) as Hg.
  pose proof (String_as_OT.cmp_antisym a b) as Ha.
  unfold String_as_OT.cmp in *.
  destruct (String.compare a b) eqn:E.
  - split; [intros _; left; now apply He | reflexivity].
  - split; [intros _; right; now apply Hl | reflexivity].
  - split; [discriminate|].
    intros [H|H].
    + apply He in H. discriminate.
    + apply Hl in H. discriminate.
Qed.

Lemma str_le_trans a b c : str_le a b -> str_le b c -> str_le a c.
Proof.
  rewrite !str_le_cases. intros [->|Hab] [->|Hbc]; auto.
  right. eapply String_as_OT.lt_trans; eassumption.
Qed.

Lemma str_le_total a b : str_le a b \/ str_le b a.
Proof. apply String.leb_total. Qed.

Lemma insert_sorted_perm x l : Permutation (insert_sorted x l) (x :: l).
Proof.
  induction l as [|y l IH]; simpl; [reflexivity|].
  destruct (x <=? y)%string; [reflexivity|].
  rewrite IH. apply perm_swap.
Qed.

Lemma sort_ids_perm l : Permutation (sort_ids l) l.
Proof.
  induction l as [|x l IH]; simpl; [reflexivity|].
  rewrite insert_sorted_perm. now constructor.
Qed.

Lemma insert_sorted_sorted x l :
  StronglySorted str_le l -> StronglySorted str_le (insert_sorted x l).
Proof.
  induction 1 as [|y l Hs IH Hall]; simpl.
  - repeat constructor.
  - destruct (x <=? y)%string eqn:E.
    + constructor; [now constructor|].
      constructor; [exact E|].
      eapply Forall_impl; [|exact Hall].
      intros z Hz. eapply str_le_trans; eassumption.
    + constructor; [exact IH|].
      eapply Permutation_Forall; [symmetry; apply insert_sorted_perm|].
      constructor; [|exact Hall].
      destruct (str_le_total x y) as [H|H]; [|exact H].
      unfold str_le in H. congruence.
Qed.

Lemma sort_ids_sorted l : StronglySorted str_le (sort_ids l).
Proof.
  induction l as [|x l IH]; simpl; [constructor|].
  now apply insert_sorted_sorted.
Qed.

Lemma firstn_incl {A} n (l : list A) x : In x (firstn n l) -> In x l.
Proof.
  revert l. induction n as [|n IH]; intros [|y l]; simpl; try tauto.
  intros [H|H]; [now left | right; now apply IH].
Qed.

Lemma firstn_sorted {A} (R : A -> A -> Prop) n l :
  StronglySorted R l -> StronglySorted R (firstn n l).
Proof.
  revert l. induction n as [|n IH]; intros [|y l] H; simpl; try constructor.
  - apply IH. now inversion H.
  - inversion H as [|? ? _ Hall]; subst.
    rewrite Forall_forall in *. intros z Hz. apply Hall.
    eapply firstn_incl; eassumption.
Qed.

Lemma filter_sorted {A} (R : A -> A -> Prop) f l :
  StronglySorted R l -> StronglySorted R (filter f l).
Proof.
  induction 1 as [|y l Hs IH Hall]; simpl; [constructor|].
  destruct (f y); [|exact IH].
  constructor; [exact IH|].
  rewrite Forall_forall in *. intros z Hz. apply Hall.
  now apply filter_In in Hz.
Qed.

Lemma firstn_NoDup {A} n (l : list A) : NoDup l -> NoDup (firstn n l).
Proof.
  revert l. induction n as [|n IH]; intros [|y l] H; simpl; try constructor.
  - inversion H; subst. intro Hin. apply firstn_incl in Hin. contradiction.
  - apply IH. now inversion H.
Qed.

Lemma plain_char_not_star c : plain_char c = true -> (c =? "*")%char = false.
Proof.
  intro H. destruct (Ascii.eqb_spec c "*") as [->|]; [discriminate H|reflexivity].
Qed.

Lemma plain_char_not_dot c : plain_char c = true -> (c =? ".")%char = false.
Proof.
  intro H. destruct (Ascii.eqb_spec c ".") as [->|]; [discriminate H|reflexivity].
Qed.

Lemma parse_plain p :
  plain p = true ->
  parse (p ++ ".*") = Some (lits p ++ [(AnyChar, true)]).
Proof.
  induction p as [|c p IH]; [reflexivity|].
  intro H. cbn [plain] in H. apply andb_true_iff in H as [Hc Hp].
  specialize (IH Hp).
  change (String c p ++ ".*")%string with (String c (p ++ ".*")).
  cbn [parse]. unfold atom_of. rewrite (plain_char_not_dot c Hc), Hc.
  destruct p as [|q p'].
  - cbn [String.append]. cbn [String.append] in IH.
    change ("." =? "*")%char with false. cbv iota.
    rewrite IH. reflexivity.
  - change (String q p' ++ ".*")%string with (String q (p' ++ ".*")) in *.
    cbn [plain] in Hp. apply andb_true_iff in Hp as [Hq _].
    rewrite (plain_char_not_star q Hq). rewrite IH. reflexivity.
Qed.

Lemma parse_pattern p :
  plain p = true ->
  parse (".*" ++ p ++ ".*") = Some ((AnyChar, true) :: lits p ++ [(AnyChar, true)]).
Proof.
  intro H. change (".*" ++ p ++ ".*")%string with (String "." (String "*" (p ++ ".*"))).
  cbn [parse]. change (atom_of ".") with (Some AnyChar).
  change ("*" =? "*")%char with true. cbv iota.
  rewrite (parse_plain p H). reflexivity.
Qed.

Lemma match_here_star a rest s :
  match_here ((a, true) :: rest) s =
  match_here rest s ||
  match s with
  | EmptyString => false
  | String c s' => atom_match a c && match_here ((a, true) :: rest) s'
  end.
Proof. destruct s; reflexivity. Qed.

Lemma match_here_lits p rest s :
  match_here (lits p ++ rest) s = true ->
  prefix (lower_str p) (lower_str s) = true.
Proof.
  revert s. induction p as [|l p IH]; intro s.
  - intros _. apply prefix_nil.
  - unfold lits. cbn [list_ascii_of_string map app match_here].
    destruct s as [|c s]; [discriminate|].
    intro H. apply andb_true_iff in H as [Hc Hr].
    cbn [lower_str]. rewrite prefix_cons. cbn [atom_match] in Hc.
    rewrite Hc. apply (IH s Hr).
Qed.

Lemma contains_prefix sub s : prefix sub s = true -> PyStr.contains sub s = true.
Proof. intro H. destruct s; cbn [PyStr.contains]; now rewrite H. Qed.

Lemma contains_tail sub c s :
  PyStr.contains sub s = true -> PyStr.contains sub (String c s) = true.
Proof. intro H. cbn [PyStr.contains]. rewrite H. apply orb_true_r. Qed.

Lemma match_here_contains p rest s :
  match_here ((AnyChar, true) :: lits p ++ rest) s = true ->
  PyStr.contains (lower_str p) (lower_str s) = true.
Proof.
  induction s as [|c s IH]; rewrite match_here_star; intro H;
    apply orb_true_iff in H as [H|H]; try discriminate.
  - apply contains_prefix. now apply match_here_lits in H.
  - apply contains_prefix. now apply match_here_lits in H.
  - apply andb_true_iff in H as [_ H]. cbn [lower_str].
    apply contains_tail. now apply IH.
Qed.

(** Soundness of the match for plain text: what the pattern
    [.*partial.*] finds contains [partial], letter case apart. *)
Lemma search_contains p s :
  search ((AnyChar, true) :: lits p ++ [(AnyChar, true)]) s = true ->
  PyStr.contains (lower_str p) (lower_str s) = true.
Proof.
  induction s as [|c s IH]; cbn [search]; intro H;
    apply orb_true_iff in H as [H|H]; try discriminate.
  - now apply match_here_contains in H.
  - now apply match_here_contains in H.
  - cbn [lower_str]. apply contains_tail. now apply IH.
Qed.

End SearchFacts.

(** ** [last_refresh_time] over a sequence of requests *)

Lemma refresh_all_data_last env w :
  last_refresh_time (snd (refresh_all_data env w)) =
  match refresh_completion env w with
  | Some t => Some t
  | None => last_refresh_time w
  end.
Proof.
  unfold refresh_completion.
  destruct (first_failing env) as [failed|] eqn:E.
  - destruct (refresh_all_data_fails env w failed E) as (Hf & Hl & _).
    destruct (refresh_all_data env w) as [[e|c] w']; [exact Hl|discriminate Hf].
  - destruct (first_failing_none env E) as (r1 & r2 & r3 & r4 & H1 & H2 & H3 & H4).
    rewrite (refresh_all_data_ok env w r1 r2 r3 r4 H1 H2 H3 H4). reflexivity.
Qed.

Lemma check_and_refresh_data_last env w :
  last_refresh_time (snd (check_and_refresh_data env w)) =
  match (if stale env w then refresh_completion env (after_check w) else None)
  with
  | Some t => Some t
  | None => last_refresh_time w
  end.
Proof.
  assert (Hac : last_refresh_time (after_check w) = last_refresh_time w).
  { unfold after_check. destruct (last_refresh_time w) eqn:E; [reflexivity|exact E]. }
  rewrite check_and_refresh_data_run. destruct (stale env w).
  - rewrite <- Hac, <- refresh_all_data_last.
    destruct (refresh_all_data env (after_check w)) as [[e|c] w']; reflexivity.
  - exact Hac.
Qed.

Lemma get_loco_summary_world env raw w :
  snd (get_loco_summary env raw w) = snd (check_and_refresh_data env w).
Proof.
  destruct (check_and_refresh_data env w) as [[e|[]] w1] eqn:Hc.
  - unfold get_loco_summary, bind. now rewrite Hc.
  - destruct (check_and_refresh_data_fresh env w w1 Hc) as [t Ht].
    rewrite (get_loco_summary_run env raw w w1 t Hc Ht). cbv zeta.
    destruct (modifications_of _ _); [|reflexivity].
    destruct (no_data _ _); reflexivity.
Qed.

Lemma search_locos_world env p w :
  snd (search_locos env p w) = snd (check_and_refresh_data env w).
Proof.
  unfold search_locos, bind.
  destruct (check_and_refresh_data env w) as [[e|[]] w1]; [reflexivity|].
  destruct (regex_matcher _ _); reflexivity.
Qed.

Lemma serve_last env rq w :
  last_refresh_time (serve env rq w) =
  match refresh_completed env rq w with
  | Some t => Some t
  | None => last_refresh_time w
  end.
Proof.
  destruct rq as [|raw|p|]; cbn [serve refresh_completed].
  - apply refresh_all_data_last.
  - rewrite get_loco_summary_world. apply check_and_refresh_data_last.
  - rewrite search_locos_world. apply check_and_refresh_data_last.
  - reflexivity.
Qed.

(** [last_refresh_time] always is the completion time of the latest
    successful refresh. *)
Lemma run_last trace w latest :
  last_refresh_time w = latest ->
  last_refresh_time (fst (run trace w latest)) = snd (run trace w latest).
Proof.
  revert w latest. induction trace as [|[env rq] rest IH]; intros w latest H.
  - exact H.
  - cbn [run]. apply IH. rewrite serve_last, H. reflexivity.
Qed.

(** * The claims *)

(** ** Identifier normalization *)

(** C1 (as the code has it).  Ingestion of a Loco_Schedules row and the
    query path do not clean an identifier the same way: the raw text
    ["27865.0"] is stored under ["27865"] (every [.0] removed, then
    stripped), while [get_loco_summary] only strips the path parameter and
    looks ["27865.0"] up as it stands.  The record ingested from that raw form
    is therefore not found by a lookup with the same raw form: the answer is
    404 although the schedule collection holds the record. *)
Theorem ingest_and_query_cleanups_differ :
  normalize "27865.0" = "27865" /\
  PyStr.strip "27865.0" = "27865.0" /\
  map loco_no (docs_schedule (db (snd (refresh_all_data env_schedule world0))))
    = ["27865"] /\
  fst (get_loco_summary env_schedule "27865.0" world0)
    = inl (HTTPException 404 "No data found for loco number: 27865.0") /\
  (exists r, fst (get_loco_summary env_schedule "27865" world0) = inr r /\
             List.length (schedules r) = 1).
Proof.
  repeat split; try reflexivity.
  eexists. split; reflexivity.
Qed.

(** C4 (as the code has it).  The Loco_list row
    [{"Loco No.": "27865.0", "Type": "WAG7", "Zone": "SECR"}] is stored under
    ["27865.0"], not ["27865"]: the Loco_list loop strips white space only.
    [get_loco_summary("27865")] then answers 404.  Asked for ["27865.0"],
    the details are the pair (Zone, SECR) alone, without [Type]. *)
Theorem loco_list_row_keeps_float_artifact :
  map loco_no (docs_loco (db (snd (refresh_all_data env_loco world0))))
    = ["27865.0"] /\
  fst (get_loco_summary env_loco "27865" world0)
    = inl (HTTPException 404 "No data found for loco number: 27865") /\
  (exists r, fst (get_loco_summary env_loco "27865.0" world0) = inr r /\
             details r = [mkLocoDetail "Zone" "SECR"]).
Proof.
  repeat split; try reflexivity.
  eexists. split; reflexivity.
Qed.

(** C5, counterexample.  On ["..00"] one pass removes the inner [.0] and
    leaves [".0"], which a second pass removes. *)
Lemma normalize_not_idempotent :
  normalize (normalize "..00") <> normalize "..00".
Proof. vm_compute. discriminate. Qed.

(** C5, amended.  [normalize (normalize x) = normalize x] holds exactly for
    the inputs whose normalized form contains no [.0] any more; in
    particular it holds for every input without two adjacent dots. *)
Theorem normalize_idempotent_iff (x : string) :
  (normalize (normalize x) = normalize x <->
   PyStr.contains ".0" (normalize x) = false) /\
  (PyStr.contains ".." x = false ->
   normalize (normalize x) = normalize x).
Proof.
  assert (Hfix : PyStr.contains ".0" (normalize x) = false ->
                 normalize (normalize x) = normalize x).
  { intro H. unfold normalize at 1. rewrite (replace_dot0_fixed _ H).
    unfold normalize. apply strip_idem. }
  split; [split; [|exact Hfix]|].
  - intro H. destruct (PyStr.contains ".0" (normalize x)) eqn:E; [|reflexivity].
    exfalso. apply replace_dot0_shrinks in E.
    pose proof (strip_length (PyStr.replace_dot0 (normalize x))) as Hs.
    unfold normalize in H at 1. rewrite H in Hs. lia.
  - intro H. apply Hfix.
    destruct (PyStr.contains ".0" (normalize x)) eqn:E; [|reflexivity].
    apply contains_strip in E. rewrite (replace_dot0_clean x H) in E.
    discriminate E.
Qed.

Lemma normalize_idempotent_iff_witness :
  normalize (normalize " 27865.0 ") = normalize " 27865.0 ".
Proof.
  apply (proj2 (normalize_idempotent_iff " 27865.0 ")). reflexivity.
Defined.

(** On a raw identifier without [.0] the two clean-ups of the source
    coincide. *)
Lemma normalize_is_strip_without_dot0 raw :
  PyStr.contains ".0" raw = false -> normalize raw = PyStr.strip raw.
Proof. intro H. unfold normalize. now rewrite replace_dot0_fixed. Qed.

(** ** The refresh *)

(** C2, counterexample.  With one Loco_list document stored and the source
    unreachable, the refresh fails on its first fetch and the stored
    document is gone: the collection was cleared before the fetch. *)
Lemma refresh_clears_before_fetching :
  docs_loco (db (snd (refresh_all_data env_loco world0))) <> [] /\
  fst (refresh_all_data env_down (snd (refresh_all_data env_loco world0)))
    = inl (HTTPException 500 "Failed to fetch Loco_list data") /\
  docs_loco
    (db (snd (refresh_all_data env_down
                (snd (refresh_all_data env_loco world0))))) = [].
Proof.
  split; [vm_compute; discriminate|]. split; reflexivity.
Qed.

(** C2, amended.  When the fetch of one of the four sheets fails, the
    refresh raises the fetch error of the first failing sheet and leaves
    [last_refresh_time] as it was; the loco, schedule and failure
    collections, all cleared before the first fetch, hold exactly what this
    run inserted before the failure, and the modifications collection is
    unchanged. *)
Theorem refresh_all_data_fetch_failure (env : Env) (w : World) (name : string) :
  In name sheet_order -> sheet env name = None ->
  exists failed,
    first_failing env = Some failed /\
    fst (refresh_all_data env w) =
      inl (HTTPException 500 ("Failed to fetch " ++ failed ++ " data")) /\
    last_refresh_time (snd (refresh_all_data env w)) = last_refresh_time w /\
    db (snd (refresh_all_data env w)) = after_failed_refresh env w.
Proof.
  intros Hin Hnone.
  destruct (first_failing_exists env name Hin Hnone) as [failed Hf].
  exists failed. split; [exact Hf|].
  now apply refresh_all_data_fails.
Qed.

Lemma refresh_all_data_fetch_failure_witness :
  exists failed,
    first_failing env_down = Some failed /\
    fst (refresh_all_data env_down world0) =
      inl (HTTPException 500 ("Failed to fetch " ++ failed ++ " data")) /\
    last_refresh_time (snd (refresh_all_data env_down world0))
      = last_refresh_time world0 /\
    db (snd (refresh_all_data env_down world0))
      = after_failed_refresh env_down world0.
Proof.
  apply (refresh_all_data_fetch_failure env_down world0 "Loco_list").
  - simpl. auto.
  - reflexivity.
Defined.

(** What a successful refresh does to the document counts: three
    collections are replaced, the modifications collection grows. *)
Lemma refresh_all_data_counts env w r1 r2 r3 r4 :
  sheet env "Loco_list" = Some r1 ->
  sheet env "Loco_Schedules" = Some r2 ->
  sheet env "Traction_failures" = Some r3 ->
  sheet env "WAG7_Modifications" = Some r4 ->
  let d := db (snd (refresh_all_data env w)) in
  count_documents d loco_data = List.length r1 /\
  count_documents d schedule_data = List.length r2 /\
  count_documents d failure_data = List.length r3 /\
  count_documents d modifications_data =
    count_documents (db w) modifications_data + List.length r4.
Proof.
  intros H1 H2 H3 H4.
  rewrite (refresh_all_data_ok env w r1 r2 r3 r4 H1 H2 H3 H4).
  unfold count_documents, refreshed. cbn [snd db coll docs_loco docs_schedule
    docs_failure docs_modifications].
  rewrite length_app, !docs_from_length. auto.
Qed.

(** C3 (as the code has it).  [refresh_all_data] clears the loco, schedule
    and failure collections and never the modifications collection: two
    refreshes against the same source, which has one modifications row,
    leave one modifications document after the first and two after the
    second, both refreshes succeeding. *)
Theorem refresh_twice_modifications_accumulate :
  (exists c, fst (refresh_all_data env_mods world0) = inr c) /\
  (exists c, fst (refresh_all_data env_mods
                    (snd (refresh_all_data env_mods world0))) = inr c) /\
  count_documents (db (snd (refresh_all_data env_mods world0)))
    modifications_data = 1 /\
  count_documents
    (db (snd (refresh_all_data env_mods
                (snd (refresh_all_data env_mods world0)))))
    modifications_data = 2.
Proof.
  repeat split; try reflexivity; eexists; reflexivity.
Qed.

(** C8 (as the code has it).  A refresh that returns normally sets
    [last_refresh_time] to its last clock reading and returns the inserted
    counts of three collections: the mapping has no entry for the
    modifications collection. *)
Theorem refresh_all_data_returns_three_counts
  (env : Env) (w w' : World) (counts : list (string * nat)) :
  refresh_all_data env w = (inr counts, w') ->
  last_refresh_time w' = Some (utcnow env (pred (clock_reads w'))) /\
  counts = [ ("loco_data", count_documents (db w') loco_data);
             ("schedule_data", count_documents (db w') schedule_data);
             ("failure_data", count_documents (db w') failure_data) ] /\
  ~ In "modifications_data" (map fst counts).
Proof.
  intro H.
  apply refresh_all_data_inr in H
    as (r1 & r2 & r3 & r4 & _ & _ & _ & _ & -> & ->).
  unfold refreshed, count_documents.
  cbn [db coll docs_loco docs_schedule docs_failure last_refresh_time
       clock_reads pred].
  rewrite !docs_from_length. repeat split.
  cbn [map fst In]. intros [H|[H|[H|[]]]]; discriminate H.
Qed.

Lemma refresh_all_data_returns_three_counts_witness :
  last_refresh_time (snd (refresh_all_data env_mods world0))
    = Some (utcnow env_mods
              (pred (clock_reads (snd (refresh_all_data env_mods world0))))) /\
  [("loco_data", 0); ("schedule_data", 0); ("failure_data", 0)]
    = [ ("loco_data",
         count_documents (db (snd (refresh_all_data env_mods world0)))
           loco_data);
        ("schedule_data",
         count_documents (db (snd (refresh_all_data env_mods world0)))
           schedule_data);
        ("failure_data",
         count_documents (db (snd (refresh_all_data env_mods world0)))
           failure_data) ] /\
  ~ In "modifications_data"
      (map fst [("loco_data", 0); ("schedule_data", 0); ("failure_data", 0)]).
Proof.
  apply (refresh_all_data_returns_three_counts env_mods world0).
  reflexivity.
Defined.

(** ** The summary *)

(** What [get_loco_summary] answers once the staleness check has passed:
    404 exactly when the four projections are empty, the composite when the
    modifications projection is empty and another one is not, and
    [NameError] as soon as the modifications projection has an item. *)
Lemma get_loco_summary_outcome env raw w w1 :
  check_and_refresh_data env w = (inr tt, w1) ->
  let id := PyStr.strip raw in
  let out := fst (get_loco_summary env raw w) in
  (out = inl (HTTPException 404 ("No data found for loco number: " ++ id))
   <-> no_data (db w1) id = true) /\
  (modifications_of (db w1) id = [] -> no_data (db w1) id = false ->
   exists r, out = inr r /\ summary_loco_no r = id /\
             details r = details_of (db w1) id /\
             schedules r = schedules_of (db w1) id /\
             failures r = failures_of (db w1) id) /\
  (modifications_of (db w1) id <> [] ->
   out = inl (NameError "ModificationDetail")).
Proof.
  intro Hc. destruct (check_and_refresh_data_fresh env w w1 Hc) as [t Ht].
  cbv zeta. rewrite (get_loco_summary_run env raw w w1 t Hc Ht). cbv zeta.
  unfold no_data.
  destruct (modifications_of (db w1) (PyStr.strip raw)) as [|m ms].
  - cbn [is_nil]. destruct (_ && _ && _ && true); cbn [fst].
    + repeat split; try discriminate; try reflexivity. congruence.
    + repeat split; try discriminate; try congruence.
      intros _ _. eexists. repeat split.
  - rewrite !andb_false_r. cbn [fst]. repeat split; try discriminate.
Qed.

(** C6 (as the code has it).  With one modifications record for ["27865"]
    the modifications projection is not empty, and [get_loco_summary]
    answers neither 404 nor the composite: resolving [ModificationDetail]
    raises [NameError]. *)
Theorem summary_with_modifications_raises :
  modifications_of (db (snd (refresh_all_data env_mods world0))) "27865"
    = [("Cab AC", "Provided")] /\
  fst (get_loco_summary env_mods "27865" world0)
    = inl (NameError "ModificationDetail").
Proof. split; reflexivity. Qed.


(** Of all the names the module's statements and function bodies refer to,
    [ModificationDetail] is the only one no statement binds. *)
Lemma only_ModificationDetail_unbound :
  nodup string_dec
    (filter (fun name => negb (name_in module_namespace name))
       (flat_map (fun s => evaluates s ++ body_refs s) server_py))
  = ["ModificationDetail"].
Proof. vm_compute. reflexivity. Qed.




(** ** The status report *)

(** Right after a refresh that returned normally. *)
Lemma status_after_refresh env w counts w' :
  refresh_all_data env w = (inr counts, w') ->
  exists r, get_refresh_status w' = (inr r, w') /\
    status_text r = "active" /\
    last_refresh r = Some (utcnow env (pred (clock_reads w'))) /\
    next_refresh r = Some (utcnow env (pred (clock_reads w')) + six_hours)%Z.
Proof.
  intro H.
  apply refresh_all_data_inr in H as (r1 & r2 & r3 & r4 & _ & _ & _ & _ & _ & ->).
  unfold get_refresh_status, bind, get_world, ret.
  eexists. split; [reflexivity|]. repeat split.
Qed.

(** C9.  Whatever requests have been served since the process started,
    [get_refresh_status] reports the latest successful refresh: state
    ["active"], [last_refresh] equal to its completion time and
    [next_refresh] six hours later; as long as no refresh has succeeded it
    reports ["pending"] with both times absent. *)
Theorem status_reports_latest_refresh
  (trace : list (Env * Request)) (d : Database) :
  exists r,
    get_refresh_status (fst (run trace (initial_world d) None))
      = (inr r, fst (run trace (initial_world d) None)) /\
    match snd (run trace (initial_world d) None) with
    | Some t =>
        status_text r = "active" /\ last_refresh r = Some t /\
        next_refresh r = Some (t + six_hours)%Z
    | None =>
        status_text r = "pending" /\ last_refresh r = None /\
        next_refresh r = None
    end.
Proof.
  pose proof (run_last trace (initial_world d) None eq_refl) as H.
  unfold get_refresh_status, bind, get_world, ret.
  eexists. split; [reflexivity|].
  cbn [status_text last_refresh next_refresh]. rewrite H.
  destruct (snd (run trace (initial_world d) None)); repeat split.
Qed.

(** ** The search *)

(** C7, counterexample.  The pattern sent for [partial = "."] is [.*..*],
    which matches every stored identifier that is not empty: both
    identifiers are returned although neither contains a dot. *)
Lemma search_dot_returns_identifiers_without_dot :
  fst (search_locos env_two "." world0) = inr ["27865"; "31278"] /\
  PyStr.contains (Regex.lower_str ".") (Regex.lower_str "27865") = false.
Proof. split; reflexivity. Qed.

(** C7, amended.  For a partial made of printable ASCII characters other
    than the regular-expression metacharacters, and once the staleness
    check has passed, [search_locos] returns stored identifiers that each
    contain the partial, letter case apart, and are not blank; the list has
    no duplicates, is sorted ascending and has at most 20 elements. *)
Theorem search_locos_plain (env : Env) (w w1 : World) (partial : string) :
  plain partial = true ->
  check_and_refresh_data env w = (inr tt, w1) ->
  exists ids,
    search_locos env partial w = (inr ids, w1) /\
    Forall (fun id =>
              In id (map loco_no (coll (db w1) loco_data)) /\
              PyStr.contains (Regex.lower_str partial) (Regex.lower_str id)
                = true /\
              PyStr.strip id <> "") ids /\
    NoDup ids /\
    StronglySorted str_le ids /\
    List.length ids <= 20.
Proof.
  intros Hp Hc. unfold search_locos.
  unfold bind at 1. rewrite Hc.
  unfold regex_matcher. rewrite (parse_pattern partial Hp).
  unfold bind, get_world, ret. eexists. split; [reflexivity|].
  set (r := (Regex.AnyChar, true) :: lits partial ++ [(Regex.AnyChar, true)]).
  set (grouped := nodup string_dec _).
  assert (Hperm : Permutation (sort_ids grouped) grouped) by apply sort_ids_perm.
  repeat split.
  - apply Forall_forall. intros id Hin.
    apply filter_In in Hin as [Hin Hne].
    do 2 apply firstn_incl in Hin.
    apply (Permutation_in _ Hperm) in Hin.
    apply nodup_In in Hin. apply in_map_iff in Hin as (doc & <- & Hdoc).
    apply filter_In in Hdoc as [Hdoc Hm].
    repeat split.
    + now apply in_map.
    + now apply search_contains in Hm.
    + intro E. rewrite E in Hne. discriminate Hne.
  - apply NoDup_filter. do 2 apply firstn_NoDup.
    eapply Permutation_NoDup; [symmetry; exact Hperm|]. apply NoDup_nodup.
  - apply filter_sorted. do 2 apply firstn_sorted. apply sort_ids_sorted.
  - etransitivity; [apply filter_length_le|]. apply firstn_le_length.
Qed.

Lemma search_locos_plain_witness :
  exists ids,
    search_locos env_two "278" world0
      = (inr ids, snd (check_and_refresh_data env_two world0)) /\
    Forall (fun id =>
              In id (map loco_no
                       (coll (db (snd (check_and_refresh_data env_two world0)))
                             loco_data)) /\
              PyStr.contains (Regex.lower_str "278") (Regex.lower_str id)
                = true /\
              PyStr.strip id <> "") ids /\
    NoDup ids /\
    StronglySorted str_le ids /\
    List.length ids <= 20.
Proof.
  apply (search_locos_plain env_two world0).
  - reflexivity.
  - reflexivity.
Defined.

(** * Further properties of the handlers *)

(** ** The staleness check *)

(** X1.  A cache refreshed at most six hours ago, six hours exactly
    included, is left alone: [check_and_refresh_data] returns normally
    without fetching, whatever the state of the source, and changes neither
    the database nor [last_refresh_time]. *)
Theorem fresh_cache_is_left_alone (env : Env) (w : World) (last : Z) :
  last_refresh_time w = Some last ->
  (utcnow env (clock_reads w) - last <= six_hours)%Z ->
  check_and_refresh_data env w
  = (inr tt, mkWorld (db w) (Some last) (S (clock_reads w))).
Proof.
  intros Hl Hage. rewrite check_and_refresh_data_run.
  unfold stale, after_check. rewrite Hl.
  replace (_ >? _)%Z with false; [reflexivity|].
  symmetry. rewrite Z.gtb_ltb. apply Z.ltb_ge. exact Hage.
Qed.

Lemma fresh_cache_is_left_alone_witness :
  check_and_refresh_data env_down
    (mkWorld empty_db (Some (ticking 1 - six_hours)%Z) 1)
  = (inr tt, mkWorld empty_db (Some (ticking 1 - six_hours)%Z) 2).
Proof.
  apply (fresh_cache_is_left_alone env_down
           (mkWorld empty_db (Some (ticking 1 - six_hours)%Z) 1)
           (ticking 1 - six_hours)%Z).
  - reflexivity.
  - vm_compute. discriminate.
Defined.

Lemma check_and_refresh_data_fails env w failed :
  stale env w = true -> first_failing env = Some failed ->
  fst (check_and_refresh_data env w)
    = inl (HTTPException 500 ("Failed to fetch " ++ failed ++ " data")) /\
  last_refresh_time (snd (check_and_refresh_data env w)) = last_refresh_time w.
Proof.
  intros Hs Hf. rewrite check_and_refresh_data_run, Hs.
  destruct (refresh_all_data_fails env (after_check w) failed Hf)
    as (He & Hl & _).
  destruct (refresh_all_data env (after_check w)) as [[e|c] w'];
    [|discriminate He].
  cbn [fst snd] in *. split; [now injection He as ->|]. rewrite Hl.
  unfold after_check. destruct (last_refresh_time w) eqn:E; [reflexivity|exact E].
Qed.

(** X2.  When the cache is stale (never refreshed, or refreshed more than
    six hours ago) and a sheet cannot be fetched, both read paths raise the
    fetch error of the first failing sheet, for every identifier and every
    partial: no 404, no stale answer; [last_refresh_time] stays as it
    was. *)
Theorem read_paths_propagate_fetch_failure
  (env : Env) (w : World) (failed raw partial : string) :
  stale env w = true ->
  first_failing env = Some failed ->
  fst (get_loco_summary env raw w)
    = inl (HTTPException 500 ("Failed to fetch " ++ failed ++ " data")) /\
  fst (search_locos env partial w)
    = inl (HTTPException 500 ("Failed to fetch " ++ failed ++ " data")) /\
  last_refresh_time (snd (get_loco_summary env raw w)) = last_refresh_time w /\
  last_refresh_time (snd (search_locos env partial w)) = last_refresh_time w.
Proof.
  intros Hs Hf.
  destruct (check_and_refresh_data_fails env w failed Hs Hf) as [He Hl].
  rewrite get_loco_summary_world, search_locos_world.
  repeat split; try exact Hl.
  - unfold get_loco_summary, bind.
    destruct (check_and_refresh_data env w) as [[e|u] w'];
      [cbn [fst] in *; now injection He as ->|discriminate He].
  - unfold search_locos, bind.
    destruct (check_and_refresh_data env w) as [[e|u] w'];
      [cbn [fst] in *; now injection He as ->|discriminate He].
Qed.

Lemma read_paths_propagate_fetch_failure_witness :
  fst (get_loco_summary env_down "27865" world0)
    = inl (HTTPException 500 ("Failed to fetch " ++ "Loco_list" ++ " data")) /\
  fst (search_locos env_down "278" world0)
    = inl (HTTPException 500 ("Failed to fetch " ++ "Loco_list" ++ " data")) /\
  last_refresh_time (snd (get_loco_summary env_down "27865" world0))
    = last_refresh_time world0 /\
  last_refresh_time (snd (search_locos env_down "278" world0))
    = last_refresh_time world0.
Proof.
  apply (read_paths_propagate_fetch_failure env_down world0 "Loco_list");
    reflexivity.
Defined.

(** ** The summary *)

(** X3.  White space around the path parameter does not matter:
    [get_loco_summary] answers a raw identifier exactly as it answers its
    stripped form. *)
Theorem get_loco_summary_ignores_outer_whitespace
  (env : Env) (raw : string) (w : World) :
  get_loco_summary env raw w = get_loco_summary env (PyStr.strip raw) w.
Proof.
  unfold get_loco_summary. rewrite strip_idem. reflexivity.
Qed.

Lemma get_loco_summary_inr env raw w r w1 :
  get_loco_summary env raw w = (inr r, w1) ->
  check_and_refresh_data env w = (inr tt, w1).
Proof.
  intro H. pose proof (get_loco_summary_world env raw w) as Hw.
  rewrite H in Hw. cbn [snd] in Hw. subst w1.
  destruct (check_and_refresh_data env w) as [[e|[]] w1] eqn:Hc; [|reflexivity].
  unfold get_loco_summary, bind in H. rewrite Hc in H. discriminate H.
Qed.

Lemma find_to_list_length d c key n :
  List.length (find_to_list d c key n) <= n.
Proof. unfold find_to_list. apply firstn_le_length. Qed.

(** X4.  Every composite [get_loco_summary] returns carries the stripped
    identifier, at least one detail, schedule or failure, at most 1000
    schedules and 1000 failures, no modification at all, and as
    [last_updated] the stored [last_refresh_time]: the fall-back to the
    current time is never taken. *)
Theorem get_loco_summary_response_shape
  (env : Env) (raw : string) (w w1 : World) (r : LocoSummaryResponse) :
  get_loco_summary env raw w = (inr r, w1) ->
  summary_loco_no r = PyStr.strip raw /\
  (details r <> [] \/ schedules r <> [] \/ failures r <> []) /\
  List.length (schedules r) <= 1000 /\
  List.length (failures r) <= 1000 /\
  modifications r = [] /\
  last_refresh_time w1 = Some (last_updated r).
Proof.
  intro H. pose proof (get_loco_summary_inr env raw w r w1 H) as Hc.
  destruct (check_and_refresh_data_fresh env w w1 Hc) as [t Ht].
  rewrite (get_loco_summary_run env raw w w1 t Hc Ht) in H. cbv zeta in H.
  destruct (modifications_of (db w1) (PyStr.strip raw)) eqn:Em;
    [|discriminate H].
  destruct (no_data (db w1) (PyStr.strip raw)) eqn:En; [discriminate H|].
  injection H as <-. cbn [summary_loco_no details schedules failures
                          modifications last_updated].
  repeat split; try exact Ht.
  - unfold no_data in En. rewrite Em in En. cbn [is_nil] in En.
    rewrite andb_true_r in En.
    destruct (details_of _ _); [|left; discriminate].
    destruct (schedules_of _ _); [|right; left; discriminate].
    destruct (failures_of _ _); [discriminate En|right; right; discriminate].
  - unfold schedules_of. rewrite length_map. apply find_to_list_length.
  - unfold failures_of. rewrite length_map. apply find_to_list_length.
Qed.

Lemma get_loco_summary_response_shape_witness :
  summary_loco_no
    (mkLocoSummaryResponse "27865.0" [mkLocoDetail "Zone" "SECR"] [] [] []
       (ticking 1))
    = PyStr.strip " 27865.0 " /\
  (details
     (mkLocoSummaryResponse "27865.0" [mkLocoDetail "Zone" "SECR"] [] [] []
        (ticking 1)) <> [] \/
   schedules
     (mkLocoSummaryResponse "27865.0" [mkLocoDetail "Zone" "SECR"] [] [] []
        (ticking 1)) <> [] \/
   failures
     (mkLocoSummaryResponse "27865.0" [mkLocoDetail "Zone" "SECR"] [] [] []
        (ticking 1)) <> []) /\
  List.length
    (schedules
       (mkLocoSummaryResponse "27865.0" [mkLocoDetail "Zone" "SECR"] [] [] []
          (ticking 1))) <= 1000 /\
  List.length
    (failures
       (mkLocoSummaryResponse "27865.0" [mkLocoDetail "Zone" "SECR"] [] [] []
          (ticking 1))) <= 1000 /\
  modifications
    (mkLocoSummaryResponse "27865.0" [mkLocoDetail "Zone" "SECR"] [] [] []
       (ticking 1)) = [] /\
  last_refresh_time (snd (get_loco_summary env_loco " 27865.0 " world0))
    = Some (last_updated
              (mkLocoSummaryResponse "27865.0" [mkLocoDetail "Zone" "SECR"]
                 [] [] [] (ticking 1))).
Proof.
  apply (get_loco_summary_response_shape env_loco " 27865.0 " world0).
  reflexivity.
Defined.

Lemma loco_details_shown d :
  Forall (fun x => field x <> "Type" /\ field x <> "Loco No." /\
                   PyStr.strip (value x) <> "")
         (loco_details d).
Proof.
  unfold loco_details. apply Forall_forall. intros x Hx.
  apply in_map_iff in Hx as ([k v] & <- & Hkv).
  apply filter_In in Hkv as [_ Hs]. unfold shown in Hs.
  apply andb_true_iff in Hs as [Hk Hv]. cbn [fst snd field value] in *.
  repeat split.
  - intros ->. discriminate Hk.
  - intros ->. discriminate Hk.
  - intro E. rewrite E in Hv. discriminate Hv.
Qed.

(** X5.  No composite ever shows the columns [Type] and [Loco No.] among
    its details, nor a detail whose value is blank. *)
Theorem get_loco_summary_details_filtered
  (env : Env) (raw : string) (w w1 : World) (r : LocoSummaryResponse) :
  get_loco_summary env raw w = (inr r, w1) ->
  Forall (fun x => field x <> "Type" /\ field x <> "Loco No." /\
                   PyStr.strip (value x) <> "")
         (details r).
Proof.
  intro H. pose proof (get_loco_summary_inr env raw w r w1 H) as Hc.
  destruct (check_and_refresh_data_fresh env w w1 Hc) as [t Ht].
  rewrite (get_loco_summary_run env raw w w1 t Hc Ht) in H. cbv zeta in H.
  destruct (modifications_of (db w1) (PyStr.strip raw)); [|discriminate H].
  destruct (no_data (db w1) (PyStr.strip raw)); [discriminate H|].
  injection H as <-. cbn [details]. unfold details_of.
  destruct (find_one _ _ _); [apply loco_details_shown|constructor].
Qed.

Lemma get_loco_summary_details_filtered_witness :
  Forall (fun x => field x <> "Type" /\ field x <> "Loco No." /\
                   PyStr.strip (value x) <> "")
         (details
            (mkLocoSummaryResponse "27865.0" [mkLocoDetail "Zone" "SECR"]
               [] [] [] (ticking 1))).
Proof.
  apply (get_loco_summary_details_filtered env_loco "27865.0" world0
           (snd (get_loco_summary env_loco "27865.0" world0))).
  reflexivity.
Defined.

Lemma row_get_missing key d default :
  ~ In key (map fst d) -> row_get key d default = default.
Proof.
  induction d as [|[k v] d IH]; [reflexivity|].
  cbn [map fst In row_get]. intro H.
  destruct (String.eqb_spec k key) as [->|_].
  - exfalso. apply H. now left.
  - apply IH. intro Hin. apply H. now right.
Qed.

Lemma strip_or_None_cell (column : string) (d : Row) :
  absent_or_stripped column d (strip_or_None (row_get column d "")).
Proof.
  unfold absent_or_stripped, strip_or_None. cbv zeta. repeat split.
  - intro H. now rewrite (row_get_missing column d "" H).
  - destruct (PyStr.strip (row_get column d "")); [reflexivity|discriminate].
  - intros ->. reflexivity.
  - destruct (PyStr.strip _); [discriminate|]. now injection H as <-.
  - destruct (PyStr.strip _); [discriminate|]. injection H as <-. discriminate.
  - destruct (PyStr.strip (row_get column d "")) eqn:E; [discriminate|].
    injection H as <-. rewrite <- E. apply strip_idem.
Qed.

(** X6.  Each of the three fields of a schedule item and of the ten fields
    of a failure item is absent exactly when the cell of its column is
    blank, in particular when the column is missing; when present it is
    the stripped cell, never an empty string. *)
Theorem schedule_and_failure_fields_absent_or_stripped (d : Row) :
  absent_or_stripped "Incoming Date " d (incoming_date (schedule_of d)) /\
  absent_or_stripped "Sch " d (sch (schedule_of d)) /\
  absent_or_stripped "Outgoing Date " d (outgoing_date (schedule_of d)) /\
  absent_or_stripped "Date Failed " d (date_failed (failure_of d)) /\
  absent_or_stripped "ICMS/ Message " d (icms_message (failure_of d)) /\
  absent_or_stripped "LOCO No. " d (failure_loco_no (failure_of d)) /\
  absent_or_stripped "MU with " d (mu_with (failure_of d)) /\
  absent_or_stripped "Div " d (div (failure_of d)) /\
  absent_or_stripped "Rly " d (rly (failure_of d)) /\
  absent_or_stripped "Brief Message " d (brief_message (failure_of d)) /\
  absent_or_stripped "Cause of Failure " d (cause_of_failure (failure_of d)) /\
  absent_or_stripped "Component " d (component (failure_of d)) /\
  absent_or_stripped "System " d (system (failure_of d)).
Proof.
  do 12 (split; [exact (strip_or_None_cell _ d)|]).
  exact (strip_or_None_cell _ d).
Qed.

(** ** What the refresh stores *)

Lemma docs_from_stripped env cname key_of rows k :
  (forall row, PyStr.strip (key_of row) = key_of row) ->
  forall doc, In doc (docs_from env cname key_of rows k) ->
              PyStr.strip (loco_no doc) = loco_no doc.
Proof.
  intro Hk. revert k. induction rows as [|row rest IH]; intros k doc Hin.
  - destruct Hin.
  - destruct Hin as [<-|Hin]; [apply Hk|]. eapply IH; eassumption.
Qed.

Lemma keys_stripped :
  (forall row, PyStr.strip (loco_list_key row) = loco_list_key row) /\
  (forall row, PyStr.strip (schedule_key row) = schedule_key row) /\
  (forall row, PyStr.strip (failure_key row) = failure_key row) /\
  (forall row, PyStr.strip (modifications_key row) = modifications_key row).
Proof.
  unfold loco_list_key, schedule_key, failure_key, modifications_key, normalize.
  repeat split; intro row; apply strip_idem.
Qed.

Lemma refresh_all_data_stripped env w :
  stripped_db (db w) -> stripped_db (db (snd (refresh_all_data env w))).
Proof.
  intro Hw. destruct keys_stripped as (K1 & K2 & K3 & K4).
  assert (Hmods : forall doc, In doc (docs_modifications (db w)) ->
                              PyStr.strip (loco_no doc) = loco_no doc)
    by (intros doc Hin; apply (Hw modifications_data doc Hin)).
  destruct (first_failing env) as [failed|] eqn:E.
  - destruct (refresh_all_data_fails env w failed E) as (_ & _ & ->).
    unfold after_failed_refresh.
    destruct (sheet env "Loco_list") as [r1|];
      [destruct (sheet env "Loco_Schedules") as [r2|];
       [destruct (sheet env "Traction_failures") as [r3|]|]|];
      intros [] doc Hin; cbn [coll docs_loco docs_schedule docs_failure
                              docs_modifications] in Hin;
      first [ now apply Hmods
            | eapply docs_from_stripped; [|exact Hin]; assumption
            | destruct Hin ].
  - destruct (first_failing_none env E) as (r1 & r2 & r3 & r4 & H1 & H2 & H3 & H4).
    rewrite (refresh_all_data_ok env w r1 r2 r3 r4 H1 H2 H3 H4).
    intros [] doc Hin; cbn [snd refreshed db coll docs_loco docs_schedule
                            docs_failure docs_modifications] in Hin;
      try (eapply docs_from_stripped; [|exact Hin]; assumption).
    apply in_app_or in Hin as [Hin|Hin]; [now apply Hmods|].
    eapply docs_from_stripped; [|exact Hin]; assumption.
Qed.

Lemma check_and_refresh_data_stripped env w :
  stripped_db (db w) -> stripped_db (db (snd (check_and_refresh_data env w))).
Proof.
  intro Hw. rewrite check_and_refresh_data_run.
  assert (Ha : stripped_db (db (after_check w))).
  { unfold after_check. destruct (last_refresh_time w); exact Hw. }
  destruct (stale env w); [|exact Ha].
  pose proof (refresh_all_data_stripped env (after_check w) Ha) as H.
  destruct (refresh_all_data env (after_check w)) as [[e|c] w']; exact H.
Qed.

Lemma serve_stripped env rq w :
  stripped_db (db w) -> stripped_db (db (serve env rq w)).
Proof.
  intro Hw. destruct rq as [|raw|p|]; cbn [serve].
  - now apply refresh_all_data_stripped.
  - rewrite get_loco_summary_world. now apply check_and_refresh_data_stripped.
  - rewrite search_locos_world. now apply check_and_refresh_data_stripped.
  - exact Hw.
Qed.

(** X7.  Provided the database starts with stripped identifiers, every
    identifier stored in any of the four collections stays free of leading
    and trailing white space, whatever requests are served and whether the
    refreshes they trigger succeed or fail. *)
Theorem stored_identifiers_stay_stripped
  (trace : list (Env * Request)) (d : Database) :
  stripped_db d ->
  stripped_db (db (fst (run trace (initial_world d) None))).
Proof.
  intro Hd.
  assert (G : forall w latest, stripped_db (db w) ->
                               stripped_db (db (fst (run trace w latest)))).
  { induction trace as [|[env rq] rest IH]; intros w latest Hw; [exact Hw|].
    cbn [run]. apply IH. now apply serve_stripped. }
  apply G. exact Hd.
Qed.

Lemma stored_identifiers_stay_stripped_witness :
  stripped_db
    (db (fst (run [(env_loco, GetSummary " 27865 "); (env_down, ManualRefresh)]
                  (initial_world empty_db) None))).
Proof.
  apply (stored_identifiers_stay_stripped
           [(env_loco, GetSummary " 27865 "); (env_down, ManualRefresh)]
           empty_db).
  intros [] doc Hin; destruct Hin.
Defined.

Lemma filter_docs_from env cname key_of rows k id :
  map data (filter (fun doc => (loco_no doc =? id)%string)
                   (docs_from env cname key_of rows k))
  = filter (fun row => (key_of row =? id)%string) rows.
Proof.
  revert k. induction rows as [|row rest IH]; intro k; [reflexivity|].
  cbn [docs_from filter loco_no].
  destruct (key_of row =? id)%string; cbn [map data]; now rewrite IH.
Qed.

Lemma find_docs_from env cname key_of rows k id :
  option_map data (find (fun doc => (loco_no doc =? id)%string)
                        (docs_from env cname key_of rows k))
  = find (fun row => (key_of row =? id)%string) rows.
Proof.
  revert k. induction rows as [|row rest IH]; intro k; [reflexivity|].
  cbn [docs_from find loco_no].
  destruct (key_of row =? id)%string; [reflexivity|apply IH].
Qed.

Lemma firstn_map {A B} (f : A -> B) n l :
  firstn n (map f l) = map f (firstn n l).
Proof.
  revert l. induction n as [|n IH]; intros [|x l]; simpl; try reflexivity.
  now rewrite IH.
Qed.

(** X8.  After a refresh whose four fetches succeed, the three replaced
    collections answer lookups from the fetched rows alone, whatever they
    held before: the details of an identifier come from the first
    Loco_list row stored under it, and its schedules and failures are
    those of the first 1000 rows stored under it, in sheet order. *)
Theorem refresh_then_lookup
  (env : Env) (w : World) (r1 r2 r3 r4 : list Row) (id : string) :
  sheet env "Loco_list" = Some r1 ->
  sheet env "Loco_Schedules" = Some r2 ->
  sheet env "Traction_failures" = Some r3 ->
  sheet env "WAG7_Modifications" = Some r4 ->
  details_of (db (snd (refresh_all_data env w))) id
    = match find (fun row => (loco_list_key row =? id)%string) r1 with
      | Some row => loco_details row
      | None => []
      end /\
  schedules_of (db (snd (refresh_all_data env w))) id
    = map schedule_of
        (firstn 1000 (filter (fun row => (schedule_key row =? id)%string) r2)) /\
  failures_of (db (snd (refresh_all_data env w))) id
    = map failure_of
        (firstn 1000 (filter (fun row => (failure_key row =? id)%string) r3)).
Proof.
  intros H1 H2 H3 H4.
  rewrite (refresh_all_data_ok env w r1 r2 r3 r4 H1 H2 H3 H4).
  unfold details_of, schedules_of, failures_of, find_one, find_to_list, refreshed.
  cbn [snd db coll docs_loco docs_schedule docs_failure].
  repeat split.
  - rewrite <- (find_docs_from env "loco_data" loco_list_key r1 (clock_reads w) id).
    destruct (find _ (docs_from _ _ _ _ _)); reflexivity.
  - rewrite <- (filter_docs_from env "schedule_data" schedule_key r2
                  (clock_reads w + List.length r1) id).
    now rewrite firstn_map, map_map.
  - rewrite <- (filter_docs_from env "failure_data" failure_key r3
                  (clock_reads w + List.length r1 + List.length r2) id).
    now rewrite firstn_map, map_map.
Qed.

Lemma refresh_then_lookup_witness :
  details_of (db (snd (refresh_all_data env_schedule world0))) "27865"
    = match find (fun row => (loco_list_key row =? "27865")%string) [] with
      | Some row => loco_details row
      | None => []
      end /\
  schedules_of (db (snd (refresh_all_data env_schedule world0))) "27865"
    = map schedule_of
        (firstn 1000
           (filter (fun row => (schedule_key row =? "27865")%string)
              [[("Loco No. ", "27865.0"); ("Incoming Date ", "2024-01-01");
                ("Sch ", "IA"); ("Outgoing Date ", "2024-01-03")]])) /\
  failures_of (db (snd (refresh_all_data env_schedule world0))) "27865"
    = map failure_of
        (firstn 1000
           (filter (fun row => (failure_key row =? "27865")%string) [])).
Proof.
  apply (refresh_then_lookup env_schedule world0 _ _ _ []); reflexivity.
Defined.

Lemma find_app_some {A} (f : A -> bool) l l' x :
  find f l = Some x -> find f (l ++ l') = Some x.
Proof.
  induction l as [|y l IH]; [discriminate|].
  cbn [find app]. destruct (f y); [auto|exact IH].
Qed.

(** X9.  A refresh never replaces a modifications record: the record that
    [find_one] returns for an identifier before a refresh is the one it
    returns after it, whether the refresh succeeds or fails, so the
    modifications first stored for an identifier are the ones served from
    then on. *)
Theorem refresh_keeps_first_modifications
  (env : Env) (w : World) (id : string) (doc : Document) :
  find_one (db w) modifications_data id = Some doc ->
  find_one (db (snd (refresh_all_data env w))) modifications_data id
    = Some doc.
Proof.
  unfold find_one. cbn [coll]. intro H.
  destruct (first_failing env) as [failed|] eqn:E.
  - destruct (refresh_all_data_fails env w failed E) as (_ & _ & ->).
    unfold after_failed_refresh.
    destruct (sheet env "Loco_list") as [r1|];
      [destruct (sheet env "Loco_Schedules") as [r2|];
       [destruct (sheet env "Traction_failures") as [r3|]|]|]; exact H.
  - destruct (first_failing_none env E) as (r1 & r2 & r3 & r4 & H1 & H2 & H3 & H4).
    rewrite (refresh_all_data_ok env w r1 r2 r3 r4 H1 H2 H3 H4).
    cbn [snd refreshed db docs_modifications]. now apply find_app_some.
Qed.

Lemma refresh_keeps_first_modifications_witness :
  find_one
    (db (snd (refresh_all_data env_loco
                (snd (refresh_all_data env_mods world0)))))
    modifications_data "27865"
  = Some (mkDocument "modifications_data" "27865"
            [("Loco No.", "27865"); ("Cab AC", "Provided")] (ticking 0)).
Proof.
  apply (refresh_keeps_first_modifications env_loco
           (snd (refresh_all_data env_mods world0))).
  reflexivity.
Defined.

(** X10.  Right after a refresh whose four fetches succeed,
    [get_refresh_status] counts as many loco, schedule and failure
    documents as rows were fetched, and as many modifications documents as
    there were before plus the rows fetched. *)
Theorem status_counts_after_refresh
  (env : Env) (w : World) (r1 r2 r3 r4 : list Row) :
  sheet env "Loco_list" = Some r1 ->
  sheet env "Loco_Schedules" = Some r2 ->
  sheet env "Traction_failures" = Some r3 ->
  sheet env "WAG7_Modifications" = Some r4 ->
  exists r,
    get_refresh_status (snd (refresh_all_data env w))
      = (inr r, snd (refresh_all_data env w)) /\
    records_count r
      = [ ("loco_data", List.length r1);
          ("schedule_data", List.length r2);
          ("failure_data", List.length r3);
          ("modifications_data",
           count_documents (db w) modifications_data + List.length r4) ].
Proof.
  intros H1 H2 H3 H4.
  rewrite (refresh_all_data_ok env w r1 r2 r3 r4 H1 H2 H3 H4).
  unfold get_refresh_status, bind, get_world, ret. eexists.
  split; [reflexivity|].
  unfold count_documents, refreshed.
  cbn [records_count snd db coll docs_loco docs_schedule docs_failure
       docs_modifications].
  now rewrite length_app, !docs_from_length.
Qed.

Lemma status_counts_after_refresh_witness :
  exists r,
    get_refresh_status (snd (refresh_all_data env_two world0))
      = (inr r, snd (refresh_all_data env_two world0)) /\
    records_count r
      = [ ("loco_data",
           List.length [[("Loco No.", "27865"); ("Zone", "SECR")];
                        [("Loco No.", "31278"); ("Zone", "SECR")]]);
          ("schedule_data", @List.length Row []);
          ("failure_data", @List.length Row []);
          ("modifications_data",
           count_documents (db world0) modifications_data
           + @List.length Row []) ].
Proof.
  apply (status_counts_after_refresh env_two world0); reflexivity.
Defined.

(** ** The remaining handlers *)

(** X11.  [manual_refresh] answers a refresh whose four fetches succeed
    with status ["success"], the numbers of loco, schedule and failure rows
    inserted and, as [refreshed_at], the completion time now stored in
    [last_refresh_time]; it turns a fetch failure into an [HTTPException]
    of status 500 whose detail quotes the error, and leaves
    [last_refresh_time] unchanged. *)
Theorem manual_refresh_reply
  (env : Env) (str_of_exn : exn -> string) (w : World) :
  (forall r1 r2 r3 r4,
     sheet env "Loco_list" = Some r1 ->
     sheet env "Loco_Schedules" = Some r2 ->
     sheet env "Traction_failures" = Some r3 ->
     sheet env "WAG7_Modifications" = Some r4 ->
     manual_refresh env str_of_exn w
       = (inr {| reply_status := "success";
                 message := "Data refreshed successfully";
                 counts := [ ("loco_data", List.length r1);
                             ("schedule_data", List.length r2);
                             ("failure_data", List.length r3) ];
                 refreshed_at :=
                   Some (utcnow env
                           (pred (clock_reads
                                    (snd (refresh_all_data env w))))) |},
          snd (refresh_all_data env w)) /\
     last_refresh_time (snd (refresh_all_data env w))
       = Some (utcnow env
                 (pred (clock_reads (snd (refresh_all_data env w)))))) /\
  (forall failed,
     first_failing env = Some failed ->
     manual_refresh env str_of_exn w
       = (inl (HTTPException 500
                 ("Refresh failed: "
                  ++ str_of_exn
                       (HTTPException 500
                          ("Failed to fetch " ++ failed ++ " data")))),
          snd (refresh_all_data env w)) /\
     last_refresh_time (snd (refresh_all_data env w)) = last_refresh_time w).
Proof.
  split.
  - intros r1 r2 r3 r4 H1 H2 H3 H4.
    unfold manual_refresh, catch, bind.
    rewrite (refresh_all_data_ok env w r1 r2 r3 r4 H1 H2 H3 H4).
    split; reflexivity.
  - intros failed E.
    destruct (refresh_all_data_fails env w failed E) as (He & Hl & _).
    split; [|exact Hl].
    unfold manual_refresh, catch, bind.
    destruct (refresh_all_data env w) as [[e|c] w']; [|discriminate He].
    cbn [fst] in He. injection He as ->. reflexivity.
Qed.

(** X12.  [startup_event] never raises, whatever the refresh does; when
    its refresh has failed in a freshly started process, every later read
    finds the cache stale and refreshes again. *)
Theorem startup_event_never_raises (env : Env) (d : Database) :
  fst (startup_event env (initial_world d)) = inr tt /\
  snd (startup_event env (initial_world d))
    = snd (refresh_all_data env (initial_world d)) /\
  (forall failed env',
     first_failing env = Some failed ->
     stale env' (snd (startup_event env (initial_world d))) = true).
Proof.
  assert (Hs : startup_event env (initial_world d)
               = (inr tt, snd (refresh_all_data env (initial_world d)))).
  { unfold startup_event, catch, bind.
    destruct (refresh_all_data env (initial_world d)) as [[e|c] w'];
      reflexivity. }
  rewrite Hs. repeat split.
  intros failed env' E. cbn [snd].
  destruct (refresh_all_data_fails env (initial_world d) failed E)
    as (_ & Hl & _).
  unfold stale. now rewrite Hl.
Qed.

Lemma manual_refresh_reply_witness :
  (manual_refresh env_two (fun _ => "down") world0
     = (inr {| reply_status := "success";
               message := "Data refreshed successfully";
               counts :=
                 [ ("loco_data",
                    List.length [[("Loco No.", "27865"); ("Zone", "SECR")];
                                 [("Loco No.", "31278"); ("Zone", "SECR")]]);
                   ("schedule_data", @List.length Row []);
                   ("failure_data", @List.length Row []) ];
               refreshed_at :=
                 Some (utcnow env_two
                         (pred (clock_reads
                                  (snd (refresh_all_data env_two world0))))) |},
        snd (refresh_all_data env_two world0)) /\
   last_refresh_time (snd (refresh_all_data env_two world0))
     = Some (utcnow env_two
               (pred (clock_reads (snd (refresh_all_data env_two world0)))))) /\
  (manual_refresh env_down (fun _ => "down") world0
     = (inl (HTTPException 500
               ("Refresh failed: "
                ++ (fun _ : exn => "down")
                     (HTTPException 500
                        ("Failed to fetch " ++ "Loco_list" ++ " data")))),
        snd (refresh_all_data env_down world0)) /\
   last_refresh_time (snd (refresh_all_data env_down world0))
     = last_refresh_time world0).
Proof.
  split.
  - apply (proj1 (manual_refresh_reply env_two (fun _ => "down") world0)
             _ _ _ []);
      reflexivity.
  - apply (proj2 (manual_refresh_reply env_down (fun _ => "down") world0)
             "Loco_list").
    reflexivity.
Defined.

Lemma startup_event_never_raises_witness :
  stale env_loco (snd (startup_event env_down (initial_world empty_db)))
    = true.
Proof.
  apply (proj2 (proj2 (startup_event_never_raises env_down empty_db))
           "Loco_list").
  reflexivity.
Defined.

(** ** The search *)

Lemma sorted_nodup_unique (l1 l2 : list string) :
  StronglySorted str_le l1 -> NoDup l1 ->
  StronglySorted str_le l2 -> NoDup l2 ->
  (forall x, In x l1 <-> In x l2) ->
  l1 = l2.
Proof.
  intros S1 N1. revert l2.
  induction S1 as [|a l1 S1 IH A1]; intros l2 S2 N2 Heq.
  - destruct l2 as [|b l2]; [reflexivity|].
    exfalso. apply (proj2 (Heq b)). now left.
  - destruct S2 as [|b l2 S2 A2].
    + exfalso. apply (proj1 (Heq a)). now left.
    + inversion N1 as [|? ? Na N1']; subst.
      inversion N2 as [|? ? Nb N2']; subst.
      rewrite Forall_forall in A1, A2.
      assert (a = b) as ->.
      { destruct (proj1 (Heq a) (or_introl eq_refl)) as [E|Hin]; [now symmetry|].
        destruct (proj2 (Heq b) (or_introl eq_refl)) as [E|Hin']; [exact E|].
        apply String.leb_antisym; [apply A1, Hin'|apply A2, Hin]. }
      f_equal. apply IH; try assumption.
      intro x. split; intro Hx.
      * destruct (proj1 (Heq x) (or_intror Hx)) as [E|Hin]; [|exact Hin].
        subst x. contradiction.
      * destruct (proj2 (Heq x) (or_intror Hx)) as [E|Hin]; [|exact Hin].
        subst x. contradiction.
Qed.

Lemma in_matched_ids (P : string -> bool) docs x :
  In x (nodup string_dec (map loco_no (filter (fun doc => P (loco_no doc)) docs)))
  <-> In x (map loco_no docs) /\ P x = true.
Proof.
  rewrite nodup_In, !in_map_iff. split.
  - intros (doc & <- & Hin). apply filter_In in Hin as [Hin HP].
    split; [now exists doc|exact HP].
  - intros ((doc & <- & Hin) & HP). exists doc. split; [reflexivity|].
    apply filter_In. now split.
Qed.

(** X13.  With one and the same store engine, the answer of
    [search_locos] depends on the stored identifiers as a set only: two
    loco collections that hold the same identifiers, in any order and with
    any repetition, give the same suggestions, or the same rejection of
    the pattern. *)
Theorem search_depends_on_identifier_set
  (env env' : Env) (w w1 v v1 : World) (partial : string) :
  store_regex env = store_regex env' ->
  check_and_refresh_data env w = (inr tt, w1) ->
  check_and_refresh_data env' v = (inr tt, v1) ->
  (forall id, In id (map loco_no (coll (db w1) loco_data))
              <-> In id (map loco_no (coll (db v1) loco_data))) ->
  fst (search_locos env partial w) = fst (search_locos env' partial v).
Proof.
  intros He Hw Hv Heq. unfold search_locos.
  unfold bind at 1 3. rewrite Hw, Hv.
  unfold regex_matcher. rewrite <- He.
  destruct (match Regex.parse _ with
            | Some r => Some (Regex.search r)
            | None => store_regex env _
            end) as [matches|]; [|reflexivity].
  unfold bind, get_world, ret. cbn [fst].
  enough (E : sort_ids
                (nodup string_dec
                   (map loco_no
                      (filter (fun doc => matches (loco_no doc))
                              (coll (db w1) loco_data))))
              = sort_ids
                  (nodup string_dec
                     (map loco_no
                        (filter (fun doc => matches (loco_no doc))
                                (coll (db v1) loco_data)))))
    by (now rewrite E).
  apply sorted_nodup_unique.
  - apply sort_ids_sorted.
  - eapply Permutation_NoDup; [symmetry; apply sort_ids_perm|apply NoDup_nodup].
  - apply sort_ids_sorted.
  - eapply Permutation_NoDup; [symmetry; apply sort_ids_perm|apply NoDup_nodup].
  - intro x.
    split; intro Hx;
      apply (Permutation_in _ (sort_ids_perm _)) in Hx;
      apply (Permutation_in _ (Permutation_sym (sort_ids_perm _)));
      apply (in_matched_ids matches) in Hx as [Hin HP];
      apply (in_matched_ids matches); (split; [|exact HP]);
      now apply Heq.
Qed.

Lemma search_depends_on_identifier_set_witness :
  fst (search_locos env_two "8" world0)
  = fst (search_locos
           (mkEnv (sheets (Some [[("Loco No.", "31278")];
                                 [("Loco No.", " 27865")];
                                 [("Loco No.", "31278 ")]])
                          (Some []) (Some []) (Some []))
                  ticking rejects_rest)
           "8" world0).
Proof.
  apply (search_depends_on_identifier_set env_two _ world0
           (snd (check_and_refresh_data env_two world0)) world0
           (snd (check_and_refresh_data
                   (mkEnv (sheets (Some [[("Loco No.", "31278")];
                                         [("Loco No.", " 27865")];
                                         [("Loco No.", "31278 ")]])
                                  (Some []) (Some []) (Some []))
                          ticking rejects_rest) world0))).
  - reflexivity.
  - reflexivity.
  - reflexivity.
  - intro id. vm_compute. tauto.
Defined.

Lemma match_here_lits_complete p s :
  prefix (Regex.lower_str p) (Regex.lower_str s) = true ->
  Regex.match_here (lits p ++ [(Regex.AnyChar, true)]) s = true.
Proof.
  revert s. induction p as [|l p IH]; intro s.
  - intros _. cbn [lits list_ascii_of_string map app].
    rewrite match_here_star. reflexivity.
  - destruct s as [|c s]; cbn [Regex.lower_str].
    + cbn [prefix]. discriminate.
    + rewrite prefix_cons. intro H. apply andb_true_iff in H as [Hc Hp].
      unfold lits. cbn [list_ascii_of_string map app Regex.match_here].
      cbn [Regex.atom_match]. rewrite Hc. apply (IH s Hp).
Qed.

Lemma search_complete p s :
  PyStr.contains (Regex.lower_str p) (Regex.lower_str s) = true ->
  Regex.search ((Regex.AnyChar, true) :: lits p ++ [(Regex.AnyChar, true)]) s
    = true.
Proof.
  assert (Hpre : forall t,
            prefix (Regex.lower_str p) (Regex.lower_str t) = true ->
            Regex.match_here
              ((Regex.AnyChar, true) :: lits p ++ [(Regex.AnyChar, true)]) t
              = true).
  { intros t Ht. rewrite match_here_star.
    now rewrite (match_here_lits_complete p t Ht). }
  induction s as [|c s IH]; cbn [Regex.lower_str PyStr.contains Regex.search];
    intro H; apply orb_true_iff in H as [H|H]; try discriminate.
  - now rewrite (Hpre "" H).
  - change (String (Regex.lower c) (Regex.lower_str s))
      with (Regex.lower_str (String c s)) in H.
    now rewrite (Hpre _ H).
  - rewrite (IH H). apply orb_true_r.
Qed.

Lemma search_plain p s :
  Regex.search ((Regex.AnyChar, true) :: lits p ++ [(Regex.AnyChar, true)]) s
  = PyStr.contains (Regex.lower_str p) (Regex.lower_str s).
Proof.
  destruct (PyStr.contains _ _) eqn:E; [now apply search_complete|].
  destruct (Regex.search _ s) eqn:F; [|reflexivity].
  apply search_contains in F. congruence.
Qed.

Lemma map_filter_key {A B} (f : A -> B) (P : B -> bool) l :
  map f (filter (fun x => P (f x)) l) = filter P (map f l).
Proof.
  induction l as [|x l IH]; [reflexivity|].
  cbn [filter map]. destruct (P (f x)); cbn [map]; now rewrite IH.
Qed.

Lemma truthy_nonempty s : PyStr.truthy s = true <-> s <> "".
Proof. destruct s; split; intro H; try discriminate; try reflexivity; congruence. Qed.

(** X14.  For a partial of plain characters whose matches are at most 20
    distinct stored identifiers, [search_locos] returns exactly the stored
    identifiers that contain the partial, letter case apart, and are not
    blank: nothing is cut off. *)
Theorem search_locos_returns_every_match
  (env : Env) (w w1 : World) (partial : string) :
  plain partial = true ->
  check_and_refresh_data env w = (inr tt, w1) ->
  List.length
    (nodup string_dec
       (filter (fun id => PyStr.contains (Regex.lower_str partial)
                                         (Regex.lower_str id))
               (map loco_no (coll (db w1) loco_data)))) <= 20 ->
  exists ids,
    search_locos env partial w = (inr ids, w1) /\
    forall id,
      In id ids <->
      In id (map loco_no (coll (db w1) loco_data)) /\
      PyStr.contains (Regex.lower_str partial) (Regex.lower_str id) = true /\
      PyStr.strip id <> "".
Proof.
  intros Hp Hc Hlen. unfold search_locos.
  unfold bind at 1. rewrite Hc.
  unfold regex_matcher. rewrite (parse_pattern partial Hp).
  unfold bind, get_world, ret. eexists. split; [reflexivity|].
  set (r := (Regex.AnyChar, true) :: lits partial ++ [(Regex.AnyChar, true)]).
  set (docs := coll (db w1) loco_data) in *.
  assert (Hg : nodup string_dec
                 (map loco_no (filter (fun doc => Regex.search r (loco_no doc)) docs))
               = nodup string_dec
                   (filter (fun id => PyStr.contains (Regex.lower_str partial)
                                                     (Regex.lower_str id))
                           (map loco_no docs))).
  { rewrite (map_filter_key loco_no (Regex.search r)). f_equal.
    apply filter_ext. intro id. apply search_plain. }
  assert (Hall : forall l, List.length l <= 20 ->
                           firstn 20 (firstn 20 (sort_ids l)) = sort_ids l).
  { intros l Hl.
    assert (List.length (sort_ids l) <= 20)
      by (rewrite (Permutation_length (sort_ids_perm l)); exact Hl).
    rewrite (firstn_all2 (sort_ids l)) by exact H.
    now rewrite (firstn_all2 (sort_ids l)) by exact H. }
  rewrite Hall by (rewrite Hg; exact Hlen).
  intro id. rewrite filter_In, truthy_nonempty.
  split.
  - intros [Hin Hne].
    apply (Permutation_in _ (sort_ids_perm _)) in Hin.
    apply (in_matched_ids (Regex.search r)) in Hin as [Hin HP].
    unfold r in HP. rewrite search_plain in HP. auto.
  - intros (Hin & HP & Hne). split; [|exact Hne].
    apply (Permutation_in _ (Permutation_sym (sort_ids_perm _))).
    apply (in_matched_ids (Regex.search r)). split; [exact Hin|].
    unfold r. now rewrite search_plain.
Qed.

Lemma search_locos_returns_every_match_witness :
  exists ids,
    search_locos env_two "278" world0
      = (inr ids, snd (check_and_refresh_data env_two world0)) /\
    forall id,
      In id ids <->
      In id (map loco_no
               (coll (db (snd (check_and_refresh_data env_two world0)))
                     loco_data)) /\
      PyStr.contains (Regex.lower_str "278") (Regex.lower_str id) = true /\
      PyStr.strip id <> "".
Proof.
  apply (search_locos_returns_every_match env_two world0).
  - reflexivity.
  - reflexivity.
  - vm_compute. repeat constructor.
Defined.

(** ** Normalization of numeric identifiers *)

Lemma digit_not_space c :
  ((48 <=? nat_of_ascii c) && (nat_of_ascii c <=? 57))%nat = true ->
  PyStr.isspace c = false /\ (c =? ".")%char = false.
Proof.
  intro H. apply andb_true_iff in H as [H1 H2].
  apply Nat.leb_le in H1. apply Nat.leb_le in H2. split.
  - unfold PyStr.isspace. cbv zeta.
    replace (nat_of_ascii c <=? 13)%nat with false
      by (symmetry; apply Nat.leb_gt; lia).
    replace (nat_of_ascii c <=? 32)%nat with false
      by (symmetry; apply Nat.leb_gt; lia).
    replace (nat_of_ascii c =? 133)%nat with false
      by (symmetry; apply Nat.eqb_neq; lia).
    replace (nat_of_ascii c =? 160)%nat with false
      by (symmetry; apply Nat.eqb_neq; lia).
    now rewrite !andb_false_r.
  - destruct (Ascii.eqb_spec c ".") as [->|]; [|reflexivity].
    cbn in H1. lia.
Qed.

Lemma digits_rstrip d : digits d = true -> PyStr.rstrip d = d.
Proof.
  induction d as [|c d IH]; [reflexivity|].
  cbn [digits]. intro H. apply andb_true_iff in H as [Hc Hd].
  cbn [PyStr.rstrip]. rewrite (IH Hd).
  destruct d; [|reflexivity].
  now rewrite (proj1 (digit_not_space c Hc)).
Qed.

Lemma digits_strip d : digits d = true -> PyStr.strip d = d.
Proof.
  intro H. unfold PyStr.strip. rewrite (digits_rstrip d H).
  destruct d as [|c d]; [reflexivity|].
  cbn [digits] in H. apply andb_true_iff in H as [Hc _].
  cbn [PyStr.lstrip]. now rewrite (proj1 (digit_not_space c Hc)).
Qed.

Lemma digits_replace d :
  digits d = true ->
  PyStr.replace_dot0 d = d /\ PyStr.replace_dot0 (d ++ ".0") = d.
Proof.
  induction d as [|c d IH]; [split; reflexivity|].
  cbn [digits]. intro H. apply andb_true_iff in H as [Hc Hd].
  destruct (IH Hd) as [IH1 IH2].
  pose proof (proj2 (digit_not_space c Hc)) as Hdot.
  change (String c d ++ ".0")%string with (String c (d ++ ".0")).
  rewrite !(replace_dot0_cons_other c _ Hdot), IH1, IH2. auto.
Qed.

(** X15.  On the text of a non-negative integer, [normalize] does what
    the ingestion comments say: a string of decimal digits is kept as it
    is, and the same digits followed by [.0] normalize to the digits. *)
Theorem normalize_integer_text (d : string) :
  digits d = true ->
  normalize d = d /\ normalize (d ++ ".0") = d.
Proof.
  intro H. destruct (digits_replace d H) as [H1 H2].
  unfold normalize. rewrite H1, H2. split; now apply digits_strip.
Qed.

Lemma normalize_integer_text_witness :
  normalize "27865" = "27865" /\ normalize ("27865" ++ ".0") = "27865".
Proof.
  apply (normalize_integer_text "27865"). reflexivity.
Defined.

(** ** The API tester *)

Section TesterFacts.

Import Tester.

Variable J : Type.
Variable empty_dict : J.
Variable send : nat -> string -> string -> Outcome J.
Variable unbound_response : string.

Let run_test := Tester.run_test J empty_dict send unbound_response.
Let run_tests := Tester.run_tests J empty_dict send unbound_response.

Lemma run_test_counters name method endpoint expected st :
  let t := fst st in
  let t' := fst (snd (run_test name method endpoint expected st)) in
  tests_run t' = tests_run t + 1 /\
  tests_passed t' + List.length (failed_tests t')
    = tests_passed t + List.length (failed_tests t) + 1.
Proof.
  destruct st as [t sent]. unfold run_test, Tester.run_test. cbv zeta.
  destruct (_ || _).
  - destruct (send sent method _) as [text|code json].
    + cbn [fst snd passed failed tests_run tests_passed failed_tests].
      rewrite length_app. cbn [List.length]. lia.
    + destruct (code =? expected)%Z;
        cbn [fst snd passed failed tests_run tests_passed failed_tests];
        rewrite ?length_app; cbn [List.length]; lia.
  - cbn [fst snd passed failed tests_run tests_passed failed_tests].
    rewrite length_app. cbn [List.length]. lia.
Qed.

Lemma run_tests_counters calls st :
  let t := fst st in
  let t' := fst (run_tests calls st) in
  tests_run t' = tests_run t + List.length calls /\
  tests_passed t' + List.length (failed_tests t')
    = tests_passed t + List.length (failed_tests t) + List.length calls.
Proof.
  revert st. induction calls as [|[[[name method] endpoint] expected] rest IH];
    intro st; cbv zeta.
  - cbn [run_tests Tester.run_tests List.length]. lia.
  - change (run_tests ((name, method, endpoint, expected) :: rest) st)
      with (run_tests rest (snd (run_test name method endpoint expected st))).
    destruct (IH (snd (run_test name method endpoint expected st))) as [H1 H2].
    destruct (run_test_counters name method endpoint expected st) as [H3 H4].
    cbv zeta in *. cbn [List.length]. lia.
Qed.

(** X16.  After any sequence of [run_test] calls on a new tester,
    [tests_run] is the number of calls and every call has been counted
    once, as passed or with one entry in [failed_tests]; the exit code of
    [main] is 0 exactly when [failed_tests] is empty. *)
Theorem tester_counts_every_call (base : string) (calls : list Call) :
  tests_run (fst (run_tests calls (init base, 0))) = List.length calls /\
  tests_passed (fst (run_tests calls (init base, 0)))
  + List.length (failed_tests (fst (run_tests calls (init base, 0))))
    = tests_run (fst (run_tests calls (init base, 0))) /\
  (exit_code (fst (run_tests calls (init base, 0))) = 0%Z <->
   failed_tests (fst (run_tests calls (init base, 0))) = []).
Proof.
  destruct (run_tests_counters calls (init base, 0)) as [H1 H2].
  cbv zeta in *. cbn [fst init tests_run tests_passed failed_tests List.length] in *.
  repeat split; try lia.
  - unfold exit_code. destruct (Nat.eqb_spec
      (tests_passed (fst (run_tests calls (init base, 0))))
      (tests_run (fst (run_tests calls (init base, 0))))) as [E|E];
      [|discriminate].
    intros _. destruct (failed_tests _); [reflexivity|]. cbn [List.length] in H2. lia.
  - intro E. unfold exit_code. rewrite E in H2. cbn [List.length] in H2.
    replace (tests_passed _ =? tests_run _)%nat with true; [reflexivity|].
    symmetry. apply Nat.eqb_eq. lia.
Qed.

(** X17.  [run_test] reports success exactly when the method is GET or
    POST and the request is answered with the expected status code; it
    then counts the test as passed.  In every other case, an exception of
    the request included, it returns [False] with the empty dictionary and
    appends one entry that starts with the name of the test. *)
Theorem run_test_verdict
  (name method endpoint : string) (expected : Z)
  (t : LocoAPITester) (sent : nat) :
  let url := if PyStr.truthy endpoint
             then (api_url t ++ "/" ++ endpoint)%string else api_url t in
  let out := run_test name method endpoint expected (t, sent) in
  (fst (fst out) = true <->
   (method = "GET" \/ method = "POST") /\
   exists json, send sent method url = Responds J expected json) /\
  (fst (fst out) = true -> fst (snd out) = passed t) /\
  (fst (fst out) = false ->
   snd (fst out) = empty_dict /\
   exists text, fst (snd out) = failed t (name ++ ": " ++ text)%string).
Proof.
  cbv zeta. unfold run_test, Tester.run_test.
  assert (Hm : (method =? "GET")%string || (method =? "POST")%string = true
               <-> method = "GET" \/ method = "POST").
  { rewrite orb_true_iff, !String.eqb_eq. reflexivity. }
  destruct ((method =? "GET")%string || (method =? "POST")%string).
  - destruct (send sent method _) as [text|code json] eqn:Es.
    + cbn [fst snd]. repeat split; try discriminate.
      * intros (_ & json & Hj). discriminate Hj.
      * now exists text.
    + destruct (Z.eqb_spec code expected) as [->|Hne]; cbn [fst snd].
      * repeat split; try discriminate. { now apply Hm. } now exists json.
      * repeat split; try discriminate.
        -- intros (_ & j & Hj). injection Hj as Hc _. contradiction.
        -- eexists. reflexivity.
  - cbn [fst snd]. repeat split; try discriminate.
    + intros (Hmeth & _). apply Hm in Hmeth. discriminate Hmeth.
    + now exists unbound_response.
Qed.

End TesterFacts.

(** ** Ingestion and lookup together *)

(** X18.  A Loco_Schedules row whose identifier cell contains no [.0] is
    found again: after a refresh whose fetches succeed, looking up the
    stripped cell, which is the key [get_loco_summary] computes from that
    text, returns the schedule of the row, provided at most 1000 rows
    share the key. *)
Theorem schedule_row_is_found
  (env : Env) (w : World) (r1 r2 r3 r4 : list Row) (row : Row) :
  sheet env "Loco_list" = Some r1 ->
  sheet env "Loco_Schedules" = Some r2 ->
  sheet env "Traction_failures" = Some r3 ->
  sheet env "WAG7_Modifications" = Some r4 ->
  In row r2 ->
  PyStr.contains ".0" (row_get "Loco No. " row "") = false ->
  List.length
    (filter (fun r => (schedule_key r
                       =? PyStr.strip (row_get "Loco No. " row ""))%string)
            r2) <= 1000 ->
  In (schedule_of row)
     (schedules_of (db (snd (refresh_all_data env w)))
                   (PyStr.strip (row_get "Loco No. " row ""))).
Proof.
  intros H1 H2 H3 H4 Hin Hdot Hlen.
  rewrite (refresh_all_data_ok env w r1 r2 r3 r4 H1 H2 H3 H4).
  unfold schedules_of, find_to_list, refreshed.
  cbn [snd db coll docs_schedule].
  rewrite <- map_map, <- firstn_map, filter_docs_from.
  rewrite firstn_all2 by exact Hlen.
  apply in_map, filter_In. split; [exact Hin|].
  unfold schedule_key. rewrite (normalize_is_strip_without_dot0 _ Hdot).
  apply String.eqb_refl.
Qed.

Lemma schedule_row_is_found_witness :
  In (schedule_of [("Loco No. ", " 27865 "); ("Sch ", "IA")])
     (schedules_of
        (db (snd (refresh_all_data
                    (mkEnv (sheets (Some [])
                                   (Some [[("Loco No. ", " 27865 ");
                                           ("Sch ", "IA")]])
                                   (Some []) (Some []))
                           ticking rejects_rest)
                    world0)))
        (PyStr.strip
           (row_get "Loco No. " [("Loco No. ", " 27865 "); ("Sch ", "IA")] ""))).
Proof.
  apply (schedule_row_is_found _ world0 []
           [[("Loco No. ", " 27865 "); ("Sch ", "IA")]] [] []);
    try reflexivity.
  - now left.
  - vm_compute. repeat constructor.
Defined.

Lemma docs_from_times env cname key_of rows k doc :
  In doc (docs_from env cname key_of rows k) ->
  exists i, k <= i < k + List.length rows /\ updated_at doc = utcnow env i.
Proof.
  revert k. induction rows as [|row rest IH]; intros k Hin; [destruct Hin|].
  destruct Hin as [<-|Hin].
  - exists k. cbn [updated_at List.length]. split; [lia|reflexivity].
  - destruct (IH (S k) Hin) as (i & Hi & Ht). exists i.
    cbn [List.length]. split; [lia|exact Ht].
Qed.

(** X19.  With a clock that never runs backwards, a successful refresh
    stamps every document it leaves in the loco, schedule and failure
    collections no later than the [last_refresh_time] it sets. *)
Theorem refresh_stamps_precede_last_refresh_time
  (env : Env) (w w' : World) (counts : list (string * nat))
  (c : CollectionName) (doc : Document) :
  (forall i j, i <= j -> (utcnow env i <= utcnow env j)%Z) ->
  refresh_all_data env w = (inr counts, w') ->
  c <> modifications_data ->
  In doc (coll (db w') c) ->
  exists t, last_refresh_time w' = Some t /\ (updated_at doc <= t)%Z.
Proof.
  intros Hmono H Hc Hin.
  apply refresh_all_data_inr in H
    as (r1 & r2 & r3 & r4 & _ & _ & _ & _ & _ & ->).
  unfold refreshed in *. cbn [db last_refresh_time] in *.
  eexists. split; [reflexivity|].
  destruct c; cbn [coll docs_loco docs_schedule docs_failure] in Hin;
    try contradiction;
    apply docs_from_times in Hin as (i & Hi & ->); apply Hmono; lia.
Qed.

Lemma refresh_stamps_precede_last_refresh_time_witness :
  exists t,
    last_refresh_time (snd (refresh_all_data env_loco world0)) = Some t /\
    (updated_at
       (mkDocument "loco_data" "27865.0"
          [("Loco No.", "27865.0"); ("Type", "WAG7"); ("Zone", "SECR")]
          (ticking 0)) <= t)%Z.
Proof.
  apply (refresh_stamps_precede_last_refresh_time env_loco world0
           (snd (refresh_all_data env_loco world0))
           [("loco_data", 1); ("schedule_data", 0); ("failure_data", 0)]
           loco_data).
  - intros i j Hij. unfold env_loco, utcnow, ticking. lia.
  - reflexivity.
  - discriminate.
  - now left.
Defined.
